(** * Voice detection pipeline: decode, normalise, extract, score, classify

    A shallow embedding of [audio_processor.py] and [detector.py].

    Modelling conventions.
    - Python and numpy floats are idealised as real numbers ([R]): there is
      no rounding and there are no NaN or infinite values.  numpy's mean of
      an empty array (NaN in Python) is outside the model; every statement
      that depends on a mean assumes a non-empty array.
    - A Python [dict] is the list of its items in insertion order, without
      repeated keys.
    - A Python [str] is a string of code points below 256.
    - Exceptions are values: a computation returns [Ok v] or [Raise e].
    - The process state threaded through the pipeline is the state of
      numpy's global random generator together with a log of the calls made
      into the external libraries (base64, pydub, librosa, numpy.random).
    - The external libraries themselves are parameters, collected in the
      record [Libs]; only [base64.b64decode] is given a definition. *)

From Stdlib Require Import Reals Lra Lia Psatz ZArith List String Ascii Strings.Byte.
From Stdlib Require Import Sorting.Sorted Sorting.Permutation.
From stdpp Require Import base option list strings pretty sorting.

Local Open Scope Z_scope.
Local Open Scope R_scope.

(** ** Exceptions and results *)

Inductive exn_class : Type :=
  | ValueError          (* builtin *)
  | KeyError            (* builtin, raised by a dict lookup *)
  | IndexError          (* builtin, raised by an out-of-range index *)
  | BinasciiError       (* binascii.Error, a subclass of ValueError *)
  | CouldntDecodeError  (* pydub.exceptions.CouldntDecodeError *)
  | LibraryError.       (* any other Exception a library raises *)

(** An exception object: its class and the text [str(e)] yields. *)
Record exn : Type := Exn { exn_class_of : exn_class; exn_str : string }.

Inductive result (A : Type) : Type :=
  | Ok (a : A)
  | Raise (e : exn).
Arguments Ok {A} a.
Arguments Raise {A} e.

(** ** Calls into external libraries *)

Inductive event : Type :=
  | EvB64Decode                 (* base64.b64decode *)
  | EvFromFile                  (* AudioSegment.from_file *)
  | EvResample                  (* librosa.resample *)
  | EvFeature (name : string)   (* librosa.feature.<name> *)
  | EvRandomNormal.             (* np.random.normal *)

(** ** The process state and the monad of the pipeline *)

(** numpy's legacy generator computes [normal(loc, scale)] as
    [loc + scale * z], [z] being its next standard normal deviate.  The
    generator is modelled by the sequence of the deviates still to come. *)
Record world : Type := World {
  gauss : nat -> R;       (* standard normal deviates still to be drawn *)
  log : list event        (* library calls made so far, oldest first *)
}.

Definition M (A : Type) : Type := world -> result A * world.

Definition ret {A} (a : A) : M A := fun w => (Ok a, w).

Definition raise {A} (e : exn) : M A := fun w => (Raise e, w).

Definition bind {A B} (m : M A) (k : A -> M B) : M B :=
  fun w => match m w with
           | (Ok a, w') => k a w'
           | (Raise e, w') => (Raise e, w')
           end.

(** [try: m except Exception as e: h e] *)
Definition try_except {A} (m : M A) (h : exn -> M A) : M A :=
  fun w => match m w with
           | (Ok a, w') => (Ok a, w')
           | (Raise e, w') => h e w'
           end.

(** A call into a library: it is logged, then returns or raises. *)
Definition ext {A} (ev : event) (r : result A) : M A :=
  fun w => (r, World (gauss w) (log w ++ [ev])).

(** The world after the further library calls [evs]. *)
Definition logged (w : world) (evs : list event) : world :=
  World (gauss w) (log w ++ evs).

(** A pure step that may raise. *)
Definition lift {A} (r : result A) : M A := fun w => (r, w).

Notation "x <- m ;; k" := (bind m (fun x => k))
  (at level 200, m at level 99, k at level 200, right associativity,
   format "'[v' x  <-  m  ;;  '/' k ']'").

(** ** Python builtins *)

(** [min(a, b)] and [max(a, b)]: the first argument unless the second is
    strictly smaller (larger). *)
Definition py_min (a b : R) : R := if Rlt_dec b a then b else a.
Definition py_max (a b : R) : R := if Rgt_dec b a then b else a.

(** [sum(xs)]: additions from the left, starting from [0]. *)
Definition py_sum (xs : list R) : R := fold_left Rplus xs 0.

(** A [dict] with [str] keys: its items, in insertion order. *)
Definition dict (V : Type) : Type := list (string * V).

(** [d[key]] *)
Fixpoint getitem {V} (d : dict V) (key : string) : result V :=
  match d with
  | [] => Raise (Exn KeyError ("'" ++ key ++ "'"))
  | (k, v) :: d' => if String.eqb k key then Ok v else getitem d' key
  end.

(** [d[key] = v]: an existing key keeps its place, a new one goes last. *)
Fixpoint setitem {V} (d : dict V) (key : string) (v : V) : dict V :=
  match d with
  | [] => [(key, v)]
  | (k, v') :: d' =>
      if String.eqb k key then (k, v) :: d' else (k, v') :: setitem d' key v
  end.

(** [d.keys()] *)
Definition keys {V} (d : dict V) : list string := map fst d.

(** The order of [str]: lexicographic, by code point. *)
Definition str_le (a b : string) : Prop := String.leb a b = true.
Definition str_lt (a b : string) : Prop := String.ltb a b = true.

#[global] Instance str_le_dec : RelDecision str_le.
Proof. intros a b. unfold str_le. apply _. Defined.

(** [sorted(keys)] *)
Definition sorted (l : list string) : list string := merge_sort str_le l.

(** Whitespace as [str.strip] and [str.isspace] see it, for code points
    below 256: tab to carriage return, the four separators 28 to 31,
    space, next-line and no-break space. *)
Definition is_space (c : ascii) : bool :=
  let n := N_of_ascii c in
  (((9 <=? n) && (n <=? 13)) || ((28 <=? n) && (n <=? 32)) ||
   (n =? 133) || (n =? 160))%N.

(** A string that is empty or holds whitespace only. *)
Definition blank (s : string) : Prop :=
  forallb is_space (list_ascii_of_string s) = true.

(** ** base64.b64decode *)

(** [table_a2b_base64] of CPython's binascii: the value of a character of
    the base64 alphabet. *)
Definition b64_value (c : ascii) : option N :=
  let n := N_of_ascii c in
  if ((65 <=? n) && (n <=? 90))%N then Some (n - 65)%N
  else if ((97 <=? n) && (n <=? 122))%N then Some (n - 71)%N
  else if ((48 <=? n) && (n <=? 57))%N then Some (n + 4)%N
  else if (n =? 43)%N then Some 62%N
  else if (n =? 47)%N then Some 63%N
  else None.

(** A value stored into an [unsigned char]. *)
Definition to_byte (n : N) : byte := byte_of_ascii (ascii_of_N n).

(** [binascii.a2b_base64] without strict mode: characters outside the
    alphabet are skipped, a complete pad sequence ends the parse, and
    left-over characters of an incomplete quad are an error. *)
Fixpoint a2b_base64_loop (data : list ascii) (quad_pos leftchar pads : N)
    (bin : list byte) : result (list byte) :=
  match data with
  | [] =>
      if (quad_pos =? 0)%N then Ok bin
      else if (quad_pos =? 1)%N then
        Raise (Exn BinasciiError
          ("Invalid base64-encoded string: number of data characters ("
           ++ pretty (N.of_nat (length bin) / 3 * 4 + 1)%N
           ++ ") cannot be 1 more than a multiple of 4"))
      else Raise (Exn BinasciiError "Incorrect padding")
  | c :: rest =>
      if Ascii.eqb c "="%char then
        if ((2 <=? quad_pos) && (4 <=? quad_pos + (pads + 1)))%N then Ok bin
        else a2b_base64_loop rest quad_pos leftchar
               (if (2 <=? quad_pos)%N then pads + 1 else pads)%N bin
      else
        match b64_value c with
        | None => a2b_base64_loop rest quad_pos leftchar pads bin
        | Some this_ch =>
            if (quad_pos =? 0)%N then
              a2b_base64_loop rest 1%N this_ch 0%N bin
            else if (quad_pos =? 1)%N then
              a2b_base64_loop rest 2%N (N.land this_ch 15) 0%N
                (bin ++ [to_byte (N.lor (N.shiftl leftchar 2) (N.shiftr this_ch 4))])
            else if (quad_pos =? 2)%N then
              a2b_base64_loop rest 3%N (N.land this_ch 3) 0%N
                (bin ++ [to_byte (N.lor (N.shiftl leftchar 4) (N.shiftr this_ch 2))])
            else
              a2b_base64_loop rest 0%N 0%N 0%N
                (bin ++ [to_byte (N.lor (N.shiftl leftchar 6) this_ch)])
        end
  end.

Definition a2b_base64 (data : list ascii) : result (list byte) :=
  a2b_base64_loop data 0%N 0%N 0%N [].

Definition is_ascii (c : ascii) : bool := (N_of_ascii c <? 128)%N.

(** [base64.b64decode(s)] on a [str]: the string is encoded as ASCII, then
    handed to [binascii.a2b_base64]. *)
Definition b64decode (s : string) : result (list byte) :=
  let data := list_ascii_of_string s in
  if forallb is_ascii data then a2b_base64 data
  else Raise (Exn ValueError "string argument should contain only ASCII characters").

(** ** config.py *)

Module config.
Definition SAMPLE_RATE : Z := 22050.
Definition N_MFCC : Z := 13.
Definition HOP_LENGTH : Z := 512.
End config.

(** ** pydub, librosa and numpy *)

(** What the code reads of a [pydub.AudioSegment]. *)
Record AudioSegment : Type := {
  sample_width : Z;                 (* bytes per sample *)
  channels : Z;
  frame_rate : Z;
  get_array_of_samples : list Z     (* interleaved integer samples *)
}.

(** A two-dimensional array, by rows (one row per coefficient or band,
    one column per analysis frame). *)
Definition matrix : Type := list (list R).

(** The external libraries, as far as the pipeline calls them. *)
Record Libs : Type := {
  (* AudioSegment.from_file(io.BytesIO(bytes), format="mp3") *)
  from_file : list byte -> result AudioSegment;
  (* librosa.resample(y, orig_sr=, target_sr=) *)
  resample : list R -> Z -> Z -> result (list R);
  (* librosa.feature.mfcc(y=, sr=, n_mfcc=, hop_length=) *)
  mfcc : list R -> Z -> Z -> Z -> result matrix;
  (* librosa.feature.<f>(y=, sr=, hop_length=) *)
  spectral_centroid : list R -> Z -> Z -> result matrix;
  spectral_rolloff : list R -> Z -> Z -> result matrix;
  chroma_stft : list R -> Z -> Z -> result matrix;
  melspectrogram : list R -> Z -> Z -> result matrix;
  spectral_contrast : list R -> Z -> Z -> result matrix;
  (* librosa.feature.<f>(y, hop_length=) *)
  zero_crossing_rate : list R -> Z -> result matrix;
  rms : list R -> Z -> result matrix;
  (* librosa.feature.tonnetz(y=, sr=) *)
  tonnetz : list R -> Z -> result matrix
}.

Definition Rsum (xs : list R) : R := fold_right Rplus 0 xs.

(** [np.mean], [np.var] and [np.std] of a one-dimensional array. *)
Definition mean (xs : list R) : R := Rsum xs / INR (length xs).

Definition var (xs : list R) : R :=
  mean (map (fun x => (x - mean xs) * (x - mean xs)) xs).

Definition std (xs : list R) : R := sqrt (var xs).

(** [m[0]]: the first row. *)
Definition row0 (m : matrix) : result (list R) :=
  match m with
  | r :: _ => Ok r
  | [] => Raise (Exn IndexError "index 0 is out of bounds for axis 0 with size 0")
  end.

(** [a.reshape((-1, 2))]: consecutive pairs; an odd size is refused. *)
Fixpoint pairs (xs : list R) : list (R * R) :=
  match xs with
  | a :: b :: rest => (a, b) :: pairs rest
  | _ => []
  end.



(** The inverse layout: the frames of two channels, interleaved. *)
Definition interleave (frames : list (R * R)) : list R :=
  flat_map (fun ab => [fst ab; snd ab]) frames.

Definition reshape2 (xs : list R) : result (list (R * R)) :=
  if Nat.even (length xs) then Ok (pairs xs)
  else Raise (Exn ValueError
         ("cannot reshape array of size " ++ pretty (length xs) ++ " into shape (2)")).

(** A feature is a number ([np.float64]) or a one-dimensional array. *)
Inductive value : Type :=
  | Scalar (x : R)
  | Vector (xs : list R).

(** [np.mean(m, axis=1)], [np.std(m, axis=1)], [np.var(m, axis=1)]: one
    statistic per row. *)
Definition mean_axis1 (m : matrix) : value := Vector (map mean m).
Definition std_axis1 (m : matrix) : value := Vector (map std m).
Definition var_axis1 (m : matrix) : value := Vector (map var m).

(** [np.mean(m)], [np.std(m)] of a whole two-dimensional array. *)
Definition mean_all (m : matrix) : value := Scalar (mean (concat m)).
Definition std_all (m : matrix) : value := Scalar (std (concat m)).

(** [np.mean(v)] of a feature: a number is its own mean. *)
Definition np_mean (v : value) : R :=
  match v with
  | Scalar x => x
  | Vector xs => mean xs
  end.

(** [v.flatten()] of an array; a number is kept as it is. *)
Definition flatten_value (v : value) : list R :=
  match v with
  | Vector xs => xs
  | Scalar x => [x]
  end.

(** ** audio_processor.py *)

Section AudioProcessor.
Variable L : Libs.

(** [self.sample_rate], set in [__init__]. *)
Definition sample_rate : Z := config.SAMPLE_RATE.

(** Lines 35 to 39 of [base64_to_audio]: convert to float32 and
    normalize.  Any other sample width leaves the integers as they are. *)
Definition to_float (audio_segment : AudioSegment) (samples : list Z) : list R :=
  if (sample_width audio_segment =? 2)%Z then        (* 16-bit audio *)
    map (fun s => IZR s / 32768) samples
  else if (sample_width audio_segment =? 4)%Z then   (* 32-bit audio *)
    map (fun s => IZR s / 2147483648) samples
  else map IZR samples.

(** Lines 41 to 43: handle stereo by averaging channels,
    [samples.reshape((-1, 2)).mean(axis=1)]. *)
Definition to_mono (audio_segment : AudioSegment) (samples : list R)
    : result (list R) :=
  if (channels audio_segment =? 2)%Z then
    match reshape2 samples with
    | Ok rows => Ok (map (fun row => mean [fst row; snd row]) rows)
    | Raise e => Raise e
    end
  else Ok samples.

Definition base64_to_audio (base64_string : string) : M (list R * Z) :=
  try_except
    ((* Decode base64 to bytes *)
     audio_bytes <- ext EvB64Decode (b64decode base64_string) ;;
     (* Load audio using pydub (handles MP3) *)
     audio_segment <- ext EvFromFile (from_file L audio_bytes) ;;
     (* Convert to numpy array *)
     let samples := get_array_of_samples audio_segment in
     (* Convert to float32 and normalize *)
     let samples := to_float audio_segment samples in
     (* Handle stereo by averaging channels *)
     samples <- lift (to_mono audio_segment samples) ;;
     let original_sr := frame_rate audio_segment in
     (* Resample to target sample rate if needed *)
     samples <-
       (if negb (original_sr =? sample_rate)%Z then
          ext EvResample (resample L samples original_sr sample_rate)
        else ret samples) ;;
     ret (samples, sample_rate))
    (fun e => raise (Exn ValueError ("Error processing audio: " ++ exn_str e))).

Definition extract_features (audio_array : list R) (sr : Z)
    : M (dict value) :=
  let features : dict value := [] in
  try_except
    ((* 1. MFCC (Mel-frequency cepstral coefficients) *)
     mfcc <- ext (EvFeature "mfcc")
               (mfcc L audio_array sr config.N_MFCC config.HOP_LENGTH) ;;
     let features := setitem features "mfcc_mean" (mean_axis1 mfcc) in
     let features := setitem features "mfcc_std" (std_axis1 mfcc) in
     let features := setitem features "mfcc_var" (var_axis1 mfcc) in
     (* 2. Spectral Centroid *)
     m <- ext (EvFeature "spectral_centroid")
            (spectral_centroid L audio_array sr config.HOP_LENGTH) ;;
     spectral_centroids <- lift (row0 m) ;;
     let features :=
       setitem features "spectral_centroid_mean" (Scalar (mean spectral_centroids)) in
     let features :=
       setitem features "spectral_centroid_std" (Scalar (std spectral_centroids)) in
     let features :=
       setitem features "spectral_centroid_var" (Scalar (var spectral_centroids)) in
     (* 3. Zero Crossing Rate *)
     m <- ext (EvFeature "zero_crossing_rate")
            (zero_crossing_rate L audio_array config.HOP_LENGTH) ;;
     zcr <- lift (row0 m) ;;
     let features := setitem features "zcr_mean" (Scalar (mean zcr)) in
     let features := setitem features "zcr_std" (Scalar (std zcr)) in
     (* 4. Spectral Rolloff *)
     m <- ext (EvFeature "spectral_rolloff")
            (spectral_rolloff L audio_array sr config.HOP_LENGTH) ;;
     rolloff <- lift (row0 m) ;;
     let features := setitem features "spectral_rolloff_mean" (Scalar (mean rolloff)) in
     let features := setitem features "spectral_rolloff_std" (Scalar (std rolloff)) in
     (* 5. Chroma Features *)
     chroma <- ext (EvFeature "chroma_stft")
                 (chroma_stft L audio_array sr config.HOP_LENGTH) ;;
     let features := setitem features "chroma_mean" (mean_axis1 chroma) in
     let features := setitem features "chroma_std" (std_axis1 chroma) in
     (* 6. RMS Energy *)
     m <- ext (EvFeature "rms") (rms L audio_array config.HOP_LENGTH) ;;
     rms <- lift (row0 m) ;;
     let features := setitem features "rms_mean" (Scalar (mean rms)) in
     let features := setitem features "rms_std" (Scalar (std rms)) in
     let features := setitem features "rms_var" (Scalar (var rms)) in
     (* 7. Mel Spectrogram *)
     mel_spec <- ext (EvFeature "melspectrogram")
                   (melspectrogram L audio_array sr config.HOP_LENGTH) ;;
     let features := setitem features "mel_spec_mean" (mean_all mel_spec) in
     let features := setitem features "mel_spec_std" (std_all mel_spec) in
     (* 8. Spectral Contrast *)
     contrast <- ext (EvFeature "spectral_contrast")
                   (spectral_contrast L audio_array sr config.HOP_LENGTH) ;;
     let features := setitem features "spectral_contrast_mean" (mean_axis1 contrast) in
     let features := setitem features "spectral_contrast_std" (std_axis1 contrast) in
     (* 9. Tonnetz (Tonal Centroid Features) *)
     tonnetz <- ext (EvFeature "tonnetz") (tonnetz L audio_array sr) ;;
     let features := setitem features "tonnetz_mean" (mean_axis1 tonnetz) in
     let features := setitem features "tonnetz_std" (std_axis1 tonnetz) in
     ret features)
    (fun e => raise (Exn ValueError ("Error extracting features: " ++ exn_str e))).

Fixpoint flatten_loop (features : dict value) (ks : list string)
    (feature_list : list R) : result (list R) :=
  match ks with
  | [] => Ok feature_list
  | key :: ks' =>
      match getitem features key with
      | Raise e => Raise e
      | Ok value =>
          (* isinstance(value, np.ndarray): extend, else append *)
          flatten_loop features ks' (feature_list ++ flatten_value value)
      end
  end.

Definition flatten_features (features : dict value) : result (list R) :=
  let feature_list := [] in
  flatten_loop features (sorted (keys features)) feature_list.

End AudioProcessor.

(** ** numpy.random *)

(** [np.random.normal(loc, scale)]: draws the next deviate of the global
    generator. *)
Definition random_normal (loc scale : R) : M R :=
  fun w => (Ok (loc + scale * gauss w 0%nat),
            World (fun n => gauss w (S n)) (log w ++ [EvRandomNormal])).

(** ** detector.py *)

(** The three statistics the scorer reads without [np.mean] are numbers in
    every feature set [extract_features] builds, and the scorer is
    modelled on such feature sets.  An array under one of these keys is
    outside the model: numpy would carry it through the arithmetic, and the
    code would fail, if at all, only in [min(1.0, total_score)], after the
    draw, with the error below for an array of several elements.  The model
    refuses an array where it is read instead.  The statements about the
    scorer assume numbers under the three keys or hold in either case. *)
Definition as_float (v : value) : result R :=
  match v with
  | Scalar x => Ok x
  | Vector _ =>
      Raise (Exn ValueError
        "The truth value of an array with more than one element is ambiguous. Use a.any() or a.all()")
  end.

Section VoiceDetector.
Variable L : Libs.

(** [self.feature_weights], set in [__init__]. *)
Definition feature_weights : dict R :=
  [ ("mfcc_consistency", 0.25);
    ("spectral_stability", 0.20);
    ("energy_regularity", 0.15);
    ("pitch_consistency", 0.15);
    ("harmonic_patterns", 0.15);
    ("temporal_variation", 0.10) ].

Definition _calculate_ai_score (features : dict value) : M R :=
  let scores : list R := [] in
  (* 1. MFCC Consistency Score *)
  mfcc_var <- lift (getitem features "mfcc_var") ;;
  let mfcc_consistency := 1 - tanh (np_mean mfcc_var / 100) in
  weight <- lift (getitem feature_weights "mfcc_consistency") ;;
  let scores := scores ++ [mfcc_consistency * weight] in
  (* 2. Spectral Stability Score *)
  spectral_var <- lift (getitem features "spectral_centroid_var") ;;
  spectral_var <- lift (as_float spectral_var) ;;
  let spectral_stability := 1 - tanh (spectral_var / 1000000) in
  weight <- lift (getitem feature_weights "spectral_stability") ;;
  let scores := scores ++ [spectral_stability * weight] in
  (* 3. Energy Regularity Score *)
  rms_var <- lift (getitem features "rms_var") ;;
  rms_var <- lift (as_float rms_var) ;;
  let energy_regularity := 1 - tanh (rms_var / 0.01) in
  weight <- lift (getitem feature_weights "energy_regularity") ;;
  let scores := scores ++ [energy_regularity * weight] in
  (* 4. Pitch Consistency Score *)
  chroma_std <- lift (getitem features "chroma_std") ;;
  let pitch_consistency := 1 - tanh (np_mean chroma_std / 0.3) in
  weight <- lift (getitem feature_weights "pitch_consistency") ;;
  let scores := scores ++ [pitch_consistency * weight] in
  (* 5. Harmonic Pattern Score *)
  tonnetz_std <- lift (getitem features "tonnetz_std") ;;
  let harmonic_score := 1 - tanh (np_mean tonnetz_std / 0.2) in
  weight <- lift (getitem feature_weights "harmonic_patterns") ;;
  let scores := scores ++ [harmonic_score * weight] in
  (* 6. Temporal Variation Score *)
  zcr_std <- lift (getitem features "zcr_std") ;;
  zcr_std <- lift (as_float zcr_std) ;;
  let temporal_score := 1 - tanh (zcr_std / 0.05) in
  weight <- lift (getitem feature_weights "temporal_variation") ;;
  let scores := scores ++ [temporal_score * weight] in
  (* Combine all scores *)
  let total_score := py_sum scores in
  (* Add slight randomization to avoid appearing deterministic *)
  noise <- random_normal 0 0.05 ;;
  let total_score := total_score + noise in
  (* Normalize to 0-1 range *)
  let total_score := py_max 0 (py_min 1 total_score) in
  ret total_score.

(** Lines 47 to 58 of [detect]: the label and the confidence of a score. *)
Definition classify (ai_score : R) : string * R :=
  let '(classification, confidence) :=
    if Rge_dec ai_score 0.5 then ("AI_GENERATED"%string, ai_score)
    else ("HUMAN"%string, 1 - ai_score) in
  (* Ensure confidence is between 0.0 and 1.0 *)
  let confidence := py_max 0 (py_min 1 confidence) in
  (classification, confidence).

Definition detect (base64_audio : string) : M (string * R) :=
  try_except
    ((* Process audio and extract features *)
     audio <- base64_to_audio L base64_audio ;;
     let '(audio_array, sr) := audio in
     features <- extract_features L audio_array sr ;;
     (* Calculate AI likelihood score *)
     ai_score <- _calculate_ai_score features ;;
     (* Determine classification *)
     ret (classify ai_score))
    (fun e => raise (Exn ValueError ("Detection error: " ++ exn_str e))).

End VoiceDetector.

(** The number of entries a key contributes to the flat vector. *)
Definition entries (features : dict value) (key : string) : nat :=
  match getitem features key with
  | Ok v => length (flatten_value v)
  | Raise _ => 0%nat
  end.

(** The keys [_calculate_ai_score] reads, in the order it reads them. *)
Definition scorer_keys : list string :=
  ["mfcc_var"; "spectral_centroid_var"; "rms_var"; "chroma_std";
   "tonnetz_std"; "zcr_std"]%string.

(** Lines 85 to 121 of [_calculate_ai_score]: the sum of the weighted
    sub-scores, as a function of the six statistics after [np.mean]. *)
Definition composite
    (mfcc_var spectral_var rms_var chroma_std tonnetz_std zcr_std : R) : R :=
  py_sum [ (1 - tanh (mfcc_var / 100)) * 0.25;
           (1 - tanh (spectral_var / 1000000)) * 0.20;
           (1 - tanh (rms_var / 0.01)) * 0.15;
           (1 - tanh (chroma_std / 0.3)) * 0.15;
           (1 - tanh (tonnetz_std / 0.2)) * 0.15;
           (1 - tanh (zcr_std / 0.05)) * 0.10 ].

(** ** main.py

    The route [detect_voice], the caller of [detect], and the dependency
    [verify_api_key].  The outcome of a route is the value it returns or
    the [HTTPException] it raises; the calls to the logger are left out,
    they do not change the outcome. *)

Inductive outcome (A : Type) : Type :=
  | Returns (a : A)
  | HTTPException (status_code : Z) (detail : string).
Arguments Returns {A} a.
Arguments HTTPException {A} status_code detail.

(** What the body of a [try] ends with: a value, a Python exception, or an
    [HTTPException], which is an [Exception] and no [ValueError]. *)
Inductive try_body (A : Type) : Type :=
  | Done (a : A)
  | RaisedExn (e : exn)
  | RaisedHTTP (status_code : Z) (detail : string).
Arguments Done {A} a.
Arguments RaisedExn {A} e.
Arguments RaisedHTTP {A} status_code detail.

(** [except ValueError]: the class and its subclasses. *)
Definition is_value_error (c : exn_class) : bool :=
  match c with
  | ValueError | BinasciiError => true
  | _ => false
  end.

(** [s.lstrip()] and [s.strip()], on the characters of the string. *)
Fixpoint lstrip (l : list ascii) : list ascii :=
  match l with
  | c :: l' => if is_space c then lstrip l' else l
  | [] => []
  end.

Definition strip (s : string) : string :=
  string_of_list_ascii
    (rev (lstrip (rev (lstrip (list_ascii_of_string s))))).

(** The nearest integer, a tie going to the even one. *)
Definition round_half_even (x : R) : Z :=
  let n := Int_part x in
  if Rlt_dec (frac_part x) 0.5 then n
  else if Rgt_dec (frac_part x) 0.5 then (n + 1)%Z
  else if Z.even n then n else (n + 1)%Z.

(** [round(x, ndigits)] of a float: the nearest multiple of
    [10 ** -ndigits], a tie going to the even multiple. *)
Definition py_round (x : R) (ndigits : nat) : R :=
  IZR (round_half_even (x * 10 ^ ndigits)) / 10 ^ ndigits.

(** The response model: [confidence] is declared with [ge=0.0] and
    [le=1.0], and pydantic raises its [ValidationError], a [ValueError],
    on a value outside. *)
Record DetectionResponse : Type := {
  classification : string;
  confidence : R
}.

Definition make_response (label : string) (c : R) : result DetectionResponse :=
  if Rle_dec 0 c then
    if Rle_dec c 1 then Ok {| classification := label; confidence := c |}
    else Raise (Exn ValueError "1 validation error for DetectionResponse")
  else Raise (Exn ValueError "1 validation error for DetectionResponse").

Section Api.
Variable L : Libs.
(** [config.API_KEY], read from the environment when the process starts. *)
Variable API_KEY : string.

Definition verify_api_key (x_api_key : option string) : outcome string :=
  match x_api_key with
  | None =>
      HTTPException 401 "Missing API key. Provide X-API-Key in request headers."
  | Some key =>
      if String.eqb key "" then          (* not x_api_key *)
        HTTPException 401 "Missing API key. Provide X-API-Key in request headers."
      else if negb (String.eqb key API_KEY) then
        HTTPException 403 "Invalid API key"
      else Returns key
  end.

Definition detect_voice (audio : string) (api_key : option string)
    : world -> outcome DetectionResponse * world :=
  fun w =>
    (* Verify API key: not api_key or api_key != config.API_KEY *)
    if match api_key with
       | None => true
       | Some key => String.eqb key "" || negb (String.eqb key API_KEY)
       end
    then
      (HTTPException 401
         "Missing or invalid API key. Provide X-API-Key in request headers.", w)
    else
      let '(body, w') :=
        (* Validate input *)
        if String.eqb audio "" || (String.length (strip audio) =? 0)%nat then
          (RaisedHTTP 400 "Audio field cannot be empty", w)
        else
          (* Perform detection *)
          match detect L audio w with
          | (Raise e, w') => (RaisedExn e, w')
          | (Ok (label, c), w') =>
              match make_response label (py_round c 2) with
              | Ok response => (Done response, w')
              | Raise e => (RaisedExn e, w')
              end
          end in
      match body with
      | Done response => (Returns response, w')
      | RaisedExn e =>
          if is_value_error (exn_class_of e) then       (* except ValueError *)
            (HTTPException 400 ("Invalid audio data: " ++ exn_str e), w')
          else                                          (* except Exception *)
            (HTTPException 500 "Internal server error during voice detection", w')
      | RaisedHTTP _ _ =>                               (* except Exception *)
          (HTTPException 500 "Internal server error during voice detection", w')
      end.

End Api.

(** ** Stand-ins for the libraries, for the examples

    A decoder that rejects the empty byte string and otherwise yields a
    given segment, a resampler that returns its input, and feature
    transforms that refuse an empty signal and otherwise return constant
    frames. *)

Definition frames (rows : nat) : matrix := repeat [0; 0] rows.

Definition on_signal {A} (y : list R) (a : A) : result A :=
  match y with
  | [] => Raise (Exn LibraryError "Audio buffer is empty")
  | _ :: _ => Ok a
  end.

Definition stub_libs (seg : AudioSegment) : Libs := {|
  from_file := fun audio_bytes =>
    match audio_bytes with
    | [] => Raise (Exn CouldntDecodeError
                     "Decoding failed. ffmpeg returned error code: 1")
    | _ :: _ => Ok seg
    end;
  resample := fun y _ _ => Ok y;
  mfcc := fun y _ n_mfcc _ => on_signal y (frames (Z.to_nat n_mfcc));
  spectral_centroid := fun y _ _ => on_signal y (frames 1);
  spectral_rolloff := fun y _ _ => on_signal y (frames 1);
  chroma_stft := fun y _ _ => on_signal y (frames 12);
  melspectrogram := fun y _ _ => on_signal y (frames 128);
  spectral_contrast := fun y _ _ => on_signal y (frames 7);
  zero_crossing_rate := fun y _ => on_signal y (frames 1);
  rms := fun y _ => on_signal y (frames 1);
  tonnetz := fun y _ => on_signal y (frames 6)
|}.

(** A 16-bit stereo segment of two frames at the target rate. *)
Definition stereo16 : AudioSegment := {|
  sample_width := 2; channels := 2; frame_rate := 22050;
  get_array_of_samples := [16384; -16384; 32767; 1]%Z
|}.



(** A 16-bit stereo segment cut in the middle of a frame. *)
Definition torn16 : AudioSegment := {|
  sample_width := 2; channels := 2; frame_rate := 22050;
  get_array_of_samples := [1; 2; 3]%Z
|}.

(** A 16-bit mono segment of two frames at twice the target rate. *)
Definition fast16 : AudioSegment := {|
  sample_width := 2; channels := 1; frame_rate := 44100;
  get_array_of_samples := [8192; -8192]%Z
|}.

(** A 16-bit mono segment without a single frame. *)
Definition empty16 : AudioSegment := {|
  sample_width := 2; channels := 1; frame_rate := 22050;
  get_array_of_samples := []
|}.

(** A generator whose deviates are all [z], and no call made yet. *)
Definition fresh_world (z : R) : world := World (fun _ => z) [].

(** The calls of a feature extraction that goes through, in order. *)
Definition feature_calls : list event :=
  [EvFeature "mfcc"; EvFeature "spectral_centroid";
   EvFeature "zero_crossing_rate"; EvFeature "spectral_rolloff";
   EvFeature "chroma_stft"; EvFeature "rms"; EvFeature "melspectrogram";
   EvFeature "spectral_contrast"; EvFeature "tonnetz"].

(** What makes the extraction fail at one transform: the error the call
    raises or, for the transforms whose result is indexed with [[0]], the
    error of taking the first row of what the call returned. *)
Definition failure (r : result matrix) (first_row : bool) : option exn :=
  match r with
  | Raise e => Some e
  | Ok m =>
      if first_row then
        match row0 m with
        | Raise e => Some e
        | Ok _ => None
        end
      else None
  end.

(** The nine transforms of [extract_features] on one buffer, in the order
    of the code, each with the error it fails with, if any. *)
Definition transform_failures (L : Libs) (audio_array : list R) (sr : Z)
    : list (option exn) :=
  [failure (mfcc L audio_array sr config.N_MFCC config.HOP_LENGTH) false;
   failure (spectral_centroid L audio_array sr config.HOP_LENGTH) true;
   failure (zero_crossing_rate L audio_array config.HOP_LENGTH) true;
   failure (spectral_rolloff L audio_array sr config.HOP_LENGTH) true;
   failure (chroma_stft L audio_array sr config.HOP_LENGTH) false;
   failure (rms L audio_array config.HOP_LENGTH) true;
   failure (melspectrogram L audio_array sr config.HOP_LENGTH) false;
   failure (spectral_contrast L audio_array sr config.HOP_LENGTH) false;
   failure (tonnetz L audio_array sr) false].

(** The position and the error of the first failure of a list. *)
Fixpoint first_failure (l : list (option exn)) : option (nat * exn) :=
  match l with
  | [] => None
  | Some e :: _ => Some (0%nat, e)
  | None :: l' =>
      match first_failure l' with
      | Some (n, e) => Some (S n, e)
      | None => None
      end
  end.

(** The library calls of a detection that goes through, in order. *)
Definition full_run : list event :=
  [EvB64Decode; EvFromFile; EvFeature "mfcc"; EvFeature "spectral_centroid";
   EvFeature "zero_crossing_rate"; EvFeature "spectral_rolloff";
   EvFeature "chroma_stft"; EvFeature "rms"; EvFeature "melspectrogram";
   EvFeature "spectral_contrast"; EvFeature "tonnetz"; EvRandomNormal].

(** The six statistics of a perfectly regular signal. *)
Definition flat_features : dict value :=
  [ ("zcr_std", Scalar 0); ("tonnetz_std", Vector [0; 0]);
    ("chroma_std", Vector [0; 0; 0]); ("rms_var", Scalar 0);
    ("spectral_centroid_var", Scalar 0); ("mfcc_var", Vector [0]) ]%string.

(** The six statistics of a lively signal, each at the divisor the scorer
    applies to it. *)
Definition busy_features : dict value :=
  [ ("mfcc_var", Vector [50; 150]); ("spectral_centroid_var", Scalar 1000000);
    ("rms_var", Scalar 0.01); ("chroma_std", Vector [0.3]);
    ("tonnetz_std", Vector [0.2]); ("zcr_std", Scalar 0.05) ]%string.

(** * Properties *)

(** ** The builtins *)

Lemma py_min_Rmin a b : py_min a b = Rmin a b.
Proof.
  unfold py_min, Rmin.
  destruct (Rlt_dec b a), (Rle_dec a b); lra.
Qed.

Lemma py_max_Rmax a b : py_max a b = Rmax a b.
Proof.
  unfold py_max, Rmax.
  destruct (Rgt_dec b a), (Rle_dec a b); lra.
Qed.

(** [max(0.0, min(1.0, x))] lies in the unit interval and leaves the
    unit interval fixed. *)
Lemma clamp_range x : 0 <= py_max 0 (py_min 1 x) <= 1.
Proof.
  unfold py_max, py_min.
  destruct (Rlt_dec x 1); destruct (Rgt_dec _ 0); lra.
Qed.

Lemma clamp_id x : 0 <= x <= 1 -> py_max 0 (py_min 1 x) = x.
Proof.
  intros Hx. unfold py_max, py_min.
  destruct (Rlt_dec x 1); destruct (Rgt_dec _ 0); lra.
Qed.

Lemma clamp_ge_half x : 0.5 <= x -> 0.5 <= py_max 0 (py_min 1 x).
Proof.
  intros Hx. unfold py_max, py_min.
  destruct (Rlt_dec x 1); destruct (Rgt_dec _ 0); lra.
Qed.

Example clamp_examples :
  py_max 0 (py_min 1 0.3) = 0.3 /\ py_max 0 (py_min 1 1.7) = 1 /\
  py_max 0 (py_min 1 (-2)) = 0.
Proof.
  unfold py_max, py_min.
  repeat split;
    (destruct (Rlt_dec _ 1); destruct (Rgt_dec _ 0); lra).
Qed.

(** ** The classifier *)

Lemma classify_ai score :
  0.5 <= score -> classify score = ("AI_GENERATED"%string, py_max 0 (py_min 1 score)).
Proof.
  intros H. unfold classify. destruct (Rge_dec score 0.5); [reflexivity | lra].
Qed.

Lemma classify_human score :
  score < 0.5 -> classify score = ("HUMAN"%string, py_max 0 (py_min 1 (1 - score))).
Proof.
  intros H. unfold classify. destruct (Rge_dec score 0.5); [lra | reflexivity].
Qed.

(** C1. For every score the scorer can hand over, that is every score of
    the unit interval, [classify] returns AI_GENERATED with the score as
    confidence when the score is at least 0.5 (0.5 included), and HUMAN
    with one minus the score otherwise; the confidence lies in [0, 1] and
    the label is one of the two. *)
Theorem classify_spec (score : R) :
  0 <= score <= 1 ->
  (0.5 <= score -> classify score = ("AI_GENERATED"%string, score)) /\
  (score < 0.5 -> classify score = ("HUMAN"%string, 1 - score)) /\
  0 <= snd (classify score) <= 1 /\
  (fst (classify score) = "AI_GENERATED"%string \/
   fst (classify score) = "HUMAN"%string).
Proof.
  intros Hs. split; [| split; [| split]].
  - intros H. rewrite classify_ai by assumption.
    rewrite clamp_id by assumption. reflexivity.
  - intros H. rewrite classify_human by assumption.
    rewrite clamp_id by lra. reflexivity.
  - destruct (Rle_lt_dec 0.5 score) as [H | H].
    + rewrite classify_ai by assumption. apply clamp_range.
    + rewrite classify_human by assumption. apply clamp_range.
  - destruct (Rle_lt_dec 0.5 score) as [H | H].
    + left. rewrite classify_ai by assumption. reflexivity.
    + right. rewrite classify_human by assumption. reflexivity.
Qed.

(** The tie: a score of exactly 0.5 is AI_GENERATED. *)
Lemma classify_spec_witness : classify 0.5 = ("AI_GENERATED"%string, 0.5).
Proof.
  assert (H : 0 <= 0.5 <= 1) by lra.
  apply (proj1 (classify_spec 0.5 H)). lra.
Defined.

(** Outside the unit interval the last clamp decides; the label and the
    range of the confidence do not depend on the interval. *)
Lemma classify_total (score : R) :
  0 <= snd (classify score) <= 1 /\
  (fst (classify score) = "AI_GENERATED"%string \/
   fst (classify score) = "HUMAN"%string).
Proof.
  destruct (Rle_lt_dec 0.5 score) as [H | H].
  - rewrite classify_ai by assumption. split; [apply clamp_range | now left].
  - rewrite classify_human by assumption. split; [apply clamp_range | now right].
Qed.

Lemma classify_confidence_ge_half (score : R) : 0.5 <= snd (classify score).
Proof.
  destruct (Rle_lt_dec 0.5 score) as [H | H].
  - rewrite classify_ai by assumption. apply clamp_ge_half. assumption.
  - rewrite classify_human by assumption. apply clamp_ge_half. simpl. lra.
Qed.

(** ** The scorer *)

Lemma feature_weights_items :
  getitem feature_weights "mfcc_consistency" = Ok 0.25 /\
  getitem feature_weights "spectral_stability" = Ok 0.20 /\
  getitem feature_weights "energy_regularity" = Ok 0.15 /\
  getitem feature_weights "pitch_consistency" = Ok 0.15 /\
  getitem feature_weights "harmonic_patterns" = Ok 0.15 /\
  getitem feature_weights "temporal_variation" = Ok 0.10.
Proof. repeat split; reflexivity. Qed.

(** Reduces the monadic plumbing of a computation applied to a world. *)
Ltac run_monad :=
  cbv beta iota delta [bind lift ret raise try_except ext]; cbn [gauss log].

(** The same, with the arithmetic of the scorer laid out. *)
Ltac run_pure :=
  cbv beta iota delta
    [bind lift ret raise try_except ext as_float random_normal fst snd
     app py_sum fold_left].

(** Splits on every lookup of the scorer, in program order. *)
Ltac scorer_cases :=
  unfold _calculate_ai_score;
  destruct feature_weights_items as (-> & -> & -> & -> & -> & ->);
  run_pure;
  repeat match goal with
    | |- context [match getitem ?d ?k with Ok _ => _ | Raise _ => _ end] =>
        destruct (getitem d k) as [[?|?]|?]; run_pure
    end.

Lemma feature_weights_keys :
  keys feature_weights =
    ["mfcc_consistency"; "spectral_stability"; "energy_regularity";
     "pitch_consistency"; "harmonic_patterns"; "temporal_variation"]%string.
Proof. reflexivity. Qed.

Lemma feature_weights_sum : py_sum (map snd feature_weights) = 1.
Proof. unfold py_sum, feature_weights. simpl. lra. Qed.

(** Every score the scorer returns lies in the unit interval. *)
Lemma calculate_ai_score_range features w score w' :
  _calculate_ai_score features w = (Ok score, w') -> 0 <= score <= 1.
Proof.
  scorer_cases; intros H;
    first [discriminate H | injection H as <- _; apply clamp_range].
Qed.

(** C2. On a feature set holding the six statistics the scorer reads (three
    non-empty arrays and three numbers), the scorer returns the clamped sum
    of six weighted sub-scores [1 - tanh(statistic / divisor)] and of a
    perturbation [normal(0, 0.05)], which is 0.05 times the next standard
    normal deviate; there are six weights and they sum to one.  The draw is
    the only call the scorer makes into a library. *)
Theorem calculate_ai_score_formula (features : dict value) (w : world)
    (mfcc_var chroma_std tonnetz_std : list R)
    (spectral_centroid_var rms_var zcr_std : R) :
  getitem features "mfcc_var" = Ok (Vector mfcc_var) -> mfcc_var <> [] ->
  getitem features "spectral_centroid_var" = Ok (Scalar spectral_centroid_var) ->
  getitem features "rms_var" = Ok (Scalar rms_var) ->
  getitem features "chroma_std" = Ok (Vector chroma_std) -> chroma_std <> [] ->
  getitem features "tonnetz_std" = Ok (Vector tonnetz_std) -> tonnetz_std <> [] ->
  getitem features "zcr_std" = Ok (Scalar zcr_std) ->
  let mfcc_consistency := 1 - tanh (Rsum mfcc_var / INR (length mfcc_var) / 100) in
  let spectral_stability := 1 - tanh (spectral_centroid_var / 1000000) in
  let energy_regularity := 1 - tanh (rms_var / 0.01) in
  let pitch_consistency := 1 - tanh (Rsum chroma_std / INR (length chroma_std) / 0.3) in
  let harmonic_patterns := 1 - tanh (Rsum tonnetz_std / INR (length tonnetz_std) / 0.2) in
  let temporal_variation := 1 - tanh (zcr_std / 0.05) in
  let composite :=
    0.25 * mfcc_consistency + 0.20 * spectral_stability +
    0.15 * energy_regularity + 0.15 * pitch_consistency +
    0.15 * harmonic_patterns + 0.10 * temporal_variation in
  let noise := 0.05 * gauss w 0%nat in
  _calculate_ai_score features w =
    (Ok (Rmax 0 (Rmin 1 (composite + noise))),
     World (fun n => gauss w (S n)) (log w ++ [EvRandomNormal])) /\
  0 <= Rmax 0 (Rmin 1 (composite + noise)) <= 1 /\
  map snd feature_weights = [0.25; 0.20; 0.15; 0.15; 0.15; 0.10] /\
  0.25 + 0.20 + 0.15 + 0.15 + 0.15 + 0.10 = 1.
Proof.
  intros Hm _ Hs Hr Hc _ Ht _ Hz. cbv zeta.
  split; [| split; [| split; [reflexivity | lra]]].
  - unfold _calculate_ai_score.
    destruct feature_weights_items as (-> & -> & -> & -> & -> & ->).
    rewrite Hm, Hs, Hr, Hc, Ht, Hz. run_pure.
    rewrite py_max_Rmax, py_min_Rmin. unfold np_mean, mean.
    match goal with
    | |- (Ok (Rmax 0 (Rmin 1 ?a)), _) = (Ok (Rmax 0 (Rmin 1 ?b)), _) =>
        replace a with b by lra
    end.
    reflexivity.
  - rewrite <- py_max_Rmax, <- py_min_Rmin. apply clamp_range.
Qed.

(** ** The order of strings *)

Lemma ascii_compare_lt_trans a b c :
  Ascii.compare a b = Lt -> Ascii.compare b c = Lt -> Ascii.compare a c = Lt.
Proof.
  unfold Ascii.compare. rewrite !N.compare_lt_iff. lia.
Qed.

Lemma string_compare_refl s : String.compare s s = Eq.
Proof.
  induction s as [| a s IH]; simpl; [reflexivity |].
  unfold Ascii.compare. rewrite N.compare_refl. exact IH.
Qed.

Lemma string_compare_lt_trans a b c :
  String.compare a b = Lt -> String.compare b c = Lt -> String.compare a c = Lt.
Proof.
  revert b c. induction a as [| x a IH]; intros [| y b] [| z c]; simpl;
    try discriminate; try reflexivity.
  destruct (Ascii.compare x y) eqn:Hxy; try discriminate;
    destruct (Ascii.compare y z) eqn:Hyz; try discriminate; intros Hab Hbc.
  - apply Ascii.compare_eq_iff in Hxy, Hyz. subst.
    unfold Ascii.compare. rewrite N.compare_refl. eauto.
  - apply Ascii.compare_eq_iff in Hxy. subst. rewrite Hyz. reflexivity.
  - apply Ascii.compare_eq_iff in Hyz. subst. rewrite Hxy. reflexivity.
  - rewrite (ascii_compare_lt_trans _ _ _ Hxy Hyz). reflexivity.
Qed.

Lemma str_lt_compare a b : str_lt a b <-> String.compare a b = Lt.
Proof.
  unfold str_lt, String.ltb. destruct (String.compare a b); split; congruence.
Qed.

Lemma str_le_compare a b : str_le a b <-> String.compare a b <> Gt.
Proof.
  unfold str_le, String.leb. destruct (String.compare a b); split; congruence.
Qed.

Lemma str_le_lt_or_eq a b : str_le a b <-> str_lt a b \/ a = b.
Proof.
  rewrite str_le_compare, str_lt_compare. split.
  - destruct (String.compare a b) eqn:H; [| now left | congruence].
    right. now apply String.compare_eq_iff.
  - intros [-> | ->]; [congruence |]. rewrite string_compare_refl. congruence.
Qed.

Lemma str_lt_irrefl a : ~ str_lt a a.
Proof. rewrite str_lt_compare, string_compare_refl. congruence. Qed.

#[global] Instance str_lt_trans : Transitive str_lt.
Proof.
  intros a b c. rewrite !str_lt_compare. apply string_compare_lt_trans.
Qed.

#[global] Instance str_le_trans : Transitive str_le.
Proof.
  intros a b c. rewrite !str_le_lt_or_eq.
  intros [H1 | ->] [H2 | ->]; auto. left. now transitivity b.
Qed.

#[global] Instance str_le_total : Total str_le.
Proof. intros a b. apply String.leb_total. Qed.

#[global] Instance str_le_antisymm : AntiSymm (=) str_le.
Proof. intros a b. apply String.leb_antisym. Qed.

Example str_order_examples :
  str_lt "chroma_mean" "chroma_std" /\ str_lt "mfcc_var" "rms_mean" /\
  str_lt "zcr" "zcr_mean" /\ ~ str_lt "rms_var" "rms_std".
Proof. repeat split; try reflexivity. intros H. discriminate H. Qed.

(** ** Dictionaries and the feature assembler *)

Lemma getitem_In {V} (d : dict V) k v :
  NoDup (keys d) -> In (k, v) d -> getitem d k = Ok v.
Proof.
  induction d as [| [k' v'] d IH]; simpl; intros Hnd Hin; [contradiction |].
  apply NoDup_cons in Hnd as [Hk' Hnd].
  destruct (String.eqb_spec k' k) as [-> | Hne].
  - destruct Hin as [Heq | Hin]; [congruence |].
    exfalso. apply Hk'. apply list_elem_of_In.
    unfold keys. apply in_map_iff. exists (k, v). auto.
  - destruct Hin as [Heq | Hin]; [congruence | auto].
Qed.

Lemma strictly_sorted_NoDup (ks : list string) :
  StronglySorted str_lt ks -> NoDup ks.
Proof.
  induction 1 as [| k ks Hs IH Hall]; constructor; [| assumption].
  intros Hin. rewrite Forall_forall in Hall.
  apply (str_lt_irrefl k). apply Hall. assumption.
Qed.

Lemma strictly_sorted_keys (items : dict value) :
  StronglySorted (fun a b => str_lt (fst a) (fst b)) items ->
  StronglySorted str_lt (keys items).
Proof. apply StronglySorted_fmap. auto. Qed.

(** [sorted] returns the one sorted arrangement of distinct keys. *)
Lemma sorted_unique (ks sks : list string) :
  Permutation sks ks -> StronglySorted str_lt sks -> sorted ks = sks.
Proof.
  intros Hperm Hsorted. unfold sorted.
  apply (StronglySorted_unique str_le).
  - apply StronglySorted_merge_sort; apply _.
  - clear Hperm. induction Hsorted as [| k l Hs IH Hall]; constructor; auto.
    eapply Forall_impl; [exact Hall |].
    intros x Hx. apply str_le_lt_or_eq. now left.
  - rewrite merge_sort_Permutation. symmetry. exact Hperm.
Qed.

Lemma flatten_loop_items (features items : dict value) (acc : list R) :
  NoDup (keys features) ->
  (forall kv, In kv items -> In kv features) ->
  flatten_loop features (keys items) acc =
    Ok (acc ++ flat_map (fun kv => flatten_value (snd kv)) items).
Proof.
  intros Hnd. revert acc.
  induction items as [| [k v] items IH]; intros acc Hsub; simpl.
  - now rewrite app_nil_r.
  - rewrite (getitem_In features k v Hnd) by (apply Hsub; now left).
    rewrite IH by (intros kv Hkv; apply Hsub; now right).
    now rewrite app_assoc.
Qed.

(** C8. [flatten_features] visits the keys in lexicographic order and
    appends a number as one entry and an array element by element: its
    result is the concatenation of the entries along the sorted arrangement
    of the items.  The result therefore depends on the items only, not on
    the order in which the dict was filled. *)
Theorem flatten_features_sorted (features items : dict value) :
  Permutation items features ->
  StronglySorted (fun a b => str_lt (fst a) (fst b)) items ->
  flatten_features features =
    Ok (flat_map (fun kv => flatten_value (snd kv)) items) /\
  sorted (keys features) = keys items /\
  (forall features' : dict value,
     Permutation features' features ->
     flatten_features features' = flatten_features features).
Proof.
  intros Hperm Hsorted.
  assert (Hkeys : forall d : dict value,
            Permutation items d -> sorted (keys d) = keys items).
  { intros d Hd. apply sorted_unique.
    - unfold keys. apply Permutation_map. exact Hd.
    - now apply strictly_sorted_keys. }
  assert (Hflat : forall d : dict value,
            Permutation items d ->
            flatten_features d =
              Ok (flat_map (fun kv => flatten_value (snd kv)) items)).
  { intros d Hd. unfold flatten_features. rewrite (Hkeys d Hd).
    apply (flatten_loop_items d items []).
    - assert (Hk : Permutation (keys items) (keys d))
        by (unfold keys; apply Permutation_map; exact Hd).
      rewrite <- Hk. apply strictly_sorted_NoDup. now apply strictly_sorted_keys.
    - intros kv Hkv. eapply Permutation_in; eassumption. }
  split; [auto | split; [auto |]].
  intros features' Hperm'. rewrite (Hflat features Hperm).
  apply Hflat. etransitivity; [exact Hperm | symmetry; exact Hperm'].
Qed.

(** Every dict has such a sorted arrangement of its items. *)
Lemma sorted_items_exist (features : dict value) :
  NoDup (keys features) ->
  exists items : dict value,
    Permutation items features /\
    StronglySorted (fun a b => str_lt (fst a) (fst b)) items.
Proof.
  intros Hnd.
  set (le := fun a b : string * value => str_le (fst a) (fst b)).
  assert (Hdec : forall a b, Decision (le a b)) by (intros a b; unfold le; apply _).
  assert (Htrans : Transitive le)
    by (intros a b c; unfold le; apply str_le_trans).
  assert (Htotal : Total le) by (intros a b; unfold le; apply str_le_total).
  exists (merge_sort le features).
  assert (Hperm : Permutation (merge_sort le features) features)
    by apply merge_sort_Permutation.
  split; [exact Hperm |].
  assert (Hnd' : NoDup (keys (merge_sort le features))).
  { assert (Hk : Permutation (keys (merge_sort le features)) (keys features))
      by (unfold keys; apply Permutation_map; exact Hperm).
    rewrite Hk. exact Hnd. }
  pose proof (StronglySorted_merge_sort le features) as Hs.
  revert Hs Hnd'. generalize (merge_sort le features) as items.
  induction 1 as [| a items Hs IH Hall]; intros Hnd'; constructor.
  - apply IH. simpl in Hnd'. now apply NoDup_cons in Hnd' as [_ ?].
  - simpl in Hnd'. apply NoDup_cons in Hnd' as [Hnotin _].
    rewrite Forall_forall in *. intros b Hb.
    destruct (proj1 (str_le_lt_or_eq _ _) (Hall b Hb)) as [Hlt | Heq];
      [exact Hlt |].
    exfalso. apply Hnotin. rewrite Heq. apply list_elem_of_In.
    unfold keys. apply in_map. apply list_elem_of_In. exact Hb.
Qed.

(** A dict filled in the order zcr_std, mfcc_var, chroma_std flattens to
    chroma_std, mfcc_var, zcr_std. *)
Lemma flatten_features_sorted_witness :
  flatten_features
    [("zcr_std", Scalar 7); ("mfcc_var", Vector [1; 2]); ("chroma_std", Vector [3])]%string
  = Ok [3; 1; 2; 7].
Proof.
  refine (proj1 (flatten_features_sorted
           [("zcr_std", Scalar 7); ("mfcc_var", Vector [1; 2]);
            ("chroma_std", Vector [3])]%string
           [("chroma_std", Vector [3]); ("mfcc_var", Vector [1; 2]);
            ("zcr_std", Scalar 7)]%string _ _)).
  - apply (Permutation_rev
             [("chroma_std", Vector [3]); ("mfcc_var", Vector [1; 2]);
              ("zcr_std", Scalar 7)]%string).
  - repeat first [reflexivity | constructor].
Defined.

(** ** Decoding and normalising *)

Lemma is_space_skipped c :
  is_space c = true -> Ascii.eqb c "="%char = false /\ b64_value c = None.
Proof.
  destruct c as [[] [] [] [] [] [] [] []]; intros H;
    first [discriminate H | split; reflexivity].
Qed.

(** Whitespace carries no data: the decoder skips it. *)
Lemma a2b_base64_loop_blank data quad_pos leftchar pads bin :
  forallb is_space data = true ->
  a2b_base64_loop data quad_pos leftchar pads bin =
  a2b_base64_loop [] quad_pos leftchar pads bin.
Proof.
  induction data as [| c data IH]; intros H; [reflexivity |].
  simpl in H. apply andb_prop in H as [Hc Hdata].
  destruct (is_space_skipped c Hc) as [Heq Hval].
  cbn [a2b_base64_loop]. rewrite Heq, Hval. auto.
Qed.

(** A blank string decodes to no bytes when it is ASCII, and is refused
    by the ASCII encoding otherwise. *)
Lemma b64decode_blank s :
  blank s ->
  b64decode s = Ok [] \/
  b64decode s =
    Raise (Exn ValueError "string argument should contain only ASCII characters").
Proof.
  intros H. unfold b64decode.
  destruct (forallb is_ascii (list_ascii_of_string s)); [left | right; reflexivity].
  unfold a2b_base64. rewrite a2b_base64_loop_blank by exact H. reflexivity.
Qed.

(** The same, decided by the characters of the string. *)
Lemma b64decode_blank_ascii s :
  blank s -> forallb is_ascii (list_ascii_of_string s) = true ->
  b64decode s = Ok [].
Proof.
  intros H Hascii. unfold b64decode. rewrite Hascii.
  unfold a2b_base64. rewrite a2b_base64_loop_blank by exact H. reflexivity.
Qed.

Lemma b64decode_not_ascii s :
  forallb is_ascii (list_ascii_of_string s) = false ->
  b64decode s =
    Raise (Exn ValueError "string argument should contain only ASCII characters").
Proof. intros Hascii. unfold b64decode. now rewrite Hascii. Qed.

Example b64decode_examples :
  b64decode "" = Ok [] /\
  b64decode "AAAA" = Ok [x00; x00; x00]%byte /\
  b64decode "aGk=" = Ok [x68; x69]%byte /\
  b64decode "a G
k = " = Ok [x68; x69]%byte /\
  b64decode "AA" = Raise (Exn BinasciiError "Incorrect padding").
Proof. repeat split; reflexivity. Qed.

(** What [base64_to_audio] does once the payload is decoded: it converts,
    downmixes, and resamples when the rates differ; a failure on the way
    becomes a [ValueError]. *)
Lemma base64_to_audio_decoded L s w audio_bytes seg :
  b64decode s = Ok audio_bytes -> from_file L audio_bytes = Ok seg ->
  base64_to_audio L s w =
    match to_mono seg (to_float seg (get_array_of_samples seg)) with
    | Raise e =>
        (Raise (Exn ValueError ("Error processing audio: " ++ exn_str e)),
         logged w [EvB64Decode; EvFromFile])
    | Ok mono =>
        if (frame_rate seg =? 22050)%Z then
          (Ok (mono, 22050%Z), logged w [EvB64Decode; EvFromFile])
        else
          (match resample L mono (frame_rate seg) 22050 with
           | Ok y => Ok (y, 22050%Z)
           | Raise e =>
               Raise (Exn ValueError ("Error processing audio: " ++ exn_str e))
           end,
           logged w [EvB64Decode; EvFromFile; EvResample])
    end.
Proof.
  intros Hb Hf. unfold base64_to_audio, logged. run_monad.
  rewrite Hb. run_monad. rewrite Hf. run_monad.
  rewrite <- !app_assoc. cbn [app].
  destruct (to_mono seg _) as [mono | e]; [| reflexivity].
  unfold sample_rate, config.SAMPLE_RATE.
  destruct (frame_rate seg =? 22050)%Z; cbn [negb]; run_monad.
  - reflexivity.
  - rewrite <- !app_assoc. cbn [app].
    destruct (resample L mono (frame_rate seg) 22050); reflexivity.
Qed.

(** C6. Integer samples become floating point by division by the full
    scale of their width: 16-bit samples are divided by 32768, which is
    2^15, and 32-bit samples by 2147483648, which is 2^31. *)
Theorem to_float_full_scale (seg : AudioSegment) (samples : list Z) :
  (sample_width seg = 2%Z ->
   to_float seg samples = map (fun s => IZR s / 32768) samples) /\
  (sample_width seg = 4%Z ->
   to_float seg samples = map (fun s => IZR s / IZR (2 ^ 31)) samples) /\
  32768 = IZR (2 ^ (8 * 2 - 1)) /\ 2147483648 = IZR (2 ^ (8 * 4 - 1)).
Proof.
  unfold to_float. repeat split.
  - intros ->. reflexivity.
  - intros ->. reflexivity.
Qed.

(** On the decoded samples of a payload, as [base64_to_audio] applies it. *)
Lemma to_float_full_scale_witness :
  to_float stereo16 (get_array_of_samples stereo16) =
    [16384 / 32768; -16384 / 32768; 32767 / 32768; 1 / 32768].
Proof.
  exact (proj1 (to_float_full_scale stereo16 (get_array_of_samples stereo16))
           eq_refl).
Defined.

Lemma pairs_interleave frames : pairs (interleave frames) = frames.
Proof.
  induction frames as [| [a b] frames IH]; [reflexivity |].
  change (interleave ((a, b) :: frames)) with (a :: b :: interleave frames).
  cbn [pairs]. now rewrite IH.
Qed.

Lemma length_interleave frames :
  length (interleave frames) = (2 * length frames)%nat.
Proof.
  induction frames as [| [a b] frames IH]; [reflexivity |].
  change (interleave ((a, b) :: frames)) with (a :: b :: interleave frames).
  cbn [length]. rewrite IH. lia.
Qed.


Lemma reshape2_interleave frames : reshape2 (interleave frames) = Ok frames.
Proof.
  unfold reshape2. rewrite length_interleave, pairs_interleave.
  replace (Nat.even (2 * length frames)) with true; [reflexivity |].
  symmetry. apply Nat.even_spec. exists (length frames). reflexivity.
Qed.

Lemma mean_pair a b : mean [a; b] = (a + b) / 2.
Proof. unfold mean, Rsum. simpl. lra. Qed.

Lemma to_mono_stereo seg frames :
  channels seg = 2%Z ->
  to_mono seg (interleave frames) =
    Ok (map (fun ab => (fst ab + snd ab) / 2) frames).
Proof.
  intros Hc. unfold to_mono. rewrite Hc. cbn [Z.eqb Pos.eqb].
  rewrite reshape2_interleave. f_equal.
  apply map_ext. intros [a b]. apply mean_pair.
Qed.

(** C5. A decoded two-channel buffer whose frames hold the channel values
    [(a, b)] becomes the mono buffer of the means [(a + b) / 2], frame by
    frame, and the downmix comes before the resampling: the mono buffer is
    returned as it is at the target rate, and is what the resampler is
    given otherwise. *)
Theorem stereo_downmix (L : Libs) (s : string) (w : world)
    (audio_bytes : list byte) (seg : AudioSegment) (frames : list (R * R)) :
  b64decode s = Ok audio_bytes -> from_file L audio_bytes = Ok seg ->
  channels seg = 2%Z ->
  to_float seg (get_array_of_samples seg) = interleave frames ->
  let mono := map (fun ab => (fst ab + snd ab) / 2) frames in
  to_mono seg (to_float seg (get_array_of_samples seg)) = Ok mono /\
  base64_to_audio L s w =
    if (frame_rate seg =? 22050)%Z then
      (Ok (mono, 22050%Z), logged w [EvB64Decode; EvFromFile])
    else
      (match resample L mono (frame_rate seg) 22050 with
       | Ok y => Ok (y, 22050%Z)
       | Raise e =>
           Raise (Exn ValueError ("Error processing audio: " ++ exn_str e))
       end,
       logged w [EvB64Decode; EvFromFile; EvResample]).
Proof.
  intros Hb Hf Hc Hframes mono.
  assert (Hmono : to_mono seg (to_float seg (get_array_of_samples seg)) = Ok mono)
    by (rewrite Hframes; now apply to_mono_stereo).
  split; [exact Hmono |].
  rewrite (base64_to_audio_decoded L s w audio_bytes seg Hb Hf), Hmono.
  reflexivity.
Qed.

(** Two 16-bit stereo frames, (1/2, -1/2) and (32767/32768, 1/32768). *)
Lemma stereo_downmix_witness :
  base64_to_audio (stub_libs stereo16) "AAAA" (fresh_world 0) =
    (Ok ([(16384 / 32768 + -16384 / 32768) / 2;
          (32767 / 32768 + 1 / 32768) / 2], 22050%Z),
     logged (fresh_world 0) [EvB64Decode; EvFromFile]).
Proof.
  exact (proj2 (stereo_downmix (stub_libs stereo16) "AAAA" (fresh_world 0)
                  [x00; x00; x00]%byte stereo16
                  [(16384 / 32768, -16384 / 32768); (32767 / 32768, 1 / 32768)]
                  eq_refl eq_refl eq_refl eq_refl)).
Defined.

(** ** The buffer handed to the feature extractor *)


Lemma length_to_float seg samples :
  length (to_float seg samples) = length samples.
Proof.
  unfold to_float. repeat destruct (_ =? _)%Z; apply length_map.
Qed.





(** The same payload as the two mono frames of [fast16], which are at
    twice the target rate and go through the resampler. *)
Lemma fast16_buffer :
  base64_to_audio (stub_libs fast16) "AAAA" (fresh_world 0) =
    (Ok ([8192 / 32768; -8192 / 32768], 22050%Z),
     logged (fresh_world 0) [EvB64Decode; EvFromFile; EvResample]).
Proof. reflexivity. Qed.




(** ** Blank input *)

Lemma base64_to_audio_bad_base64 L s w e :
  b64decode s = Raise e ->
  base64_to_audio L s w =
    (Raise (Exn ValueError ("Error processing audio: " ++ exn_str e)),
     logged w [EvB64Decode]).
Proof.
  intros Hb. unfold base64_to_audio, logged. run_monad. rewrite Hb.
  reflexivity.
Qed.

Lemma base64_to_audio_bad_container L s w audio_bytes e :
  b64decode s = Ok audio_bytes -> from_file L audio_bytes = Raise e ->
  base64_to_audio L s w =
    (Raise (Exn ValueError ("Error processing audio: " ++ exn_str e)),
     logged w [EvB64Decode; EvFromFile]).
Proof.
  intros Hb Hf. unfold base64_to_audio, logged. run_monad.
  rewrite Hb. run_monad. rewrite Hf. run_monad.
  rewrite <- !app_assoc. reflexivity.
Qed.

(** C3, as the code has it.  A blank string is handed to the base64
    decoder first.  When all its characters are ASCII, the base64 decoder
    returns no bytes, these go to the container decoder, and when that
    refuses them the stage raises its [ValueError] with the container
    decoder's message, both decoders having been called.  When it holds
    whitespace outside ASCII, the base64 decoder refuses it and the stage
    raises its [ValueError] with the base64 decoder's message, the
    container decoder not having been called. *)
Theorem blank_input_rejected (L : Libs) (s : string) (w : world) (e0 : exn) :
  blank s -> from_file L [] = Raise e0 ->
  (forallb is_ascii (list_ascii_of_string s) = true ->
   b64decode s = Ok [] /\
   base64_to_audio L s w =
     (Raise (Exn ValueError ("Error processing audio: " ++ exn_str e0)),
      logged w [EvB64Decode; EvFromFile])) /\
  (forallb is_ascii (list_ascii_of_string s) = false ->
   b64decode s =
     Raise (Exn ValueError
       "string argument should contain only ASCII characters") /\
   base64_to_audio L s w =
     (Raise (Exn ValueError
        "Error processing audio: string argument should contain only ASCII characters"),
      logged w [EvB64Decode])).
Proof.
  intros Hblank Hempty. split; intros Hascii.
  - pose proof (b64decode_blank_ascii s Hblank Hascii) as Hb.
    split; [exact Hb |].
    now apply base64_to_audio_bad_container with (audio_bytes := []).
  - pose proof (b64decode_not_ascii s Hascii) as Hb.
    split; [exact Hb |].
    now rewrite (base64_to_audio_bad_base64 L s w _ Hb).
Qed.

(** A string of a space, a tab and a newline reaches the container
    decoder; a no-break space, code point 160, is refused by the base64
    decoder. *)
Lemma blank_input_rejected_witness :
  (b64decode " 	
" = Ok [] /\
   base64_to_audio (stub_libs stereo16) " 	
" (fresh_world 0) =
     (Raise (Exn ValueError
        "Error processing audio: Decoding failed. ffmpeg returned error code: 1"),
      logged (fresh_world 0) [EvB64Decode; EvFromFile])) /\
  (b64decode (String "160" "") =
     Raise (Exn ValueError
       "string argument should contain only ASCII characters") /\
   base64_to_audio (stub_libs stereo16) (String "160" "") (fresh_world 0) =
     (Raise (Exn ValueError
        "Error processing audio: string argument should contain only ASCII characters"),
      logged (fresh_world 0) [EvB64Decode])).
Proof.
  split.
  - exact (proj1 (blank_input_rejected (stub_libs stereo16) " 	
" (fresh_world 0)
                    (Exn CouldntDecodeError
                       "Decoding failed. ffmpeg returned error code: 1")
                    eq_refl eq_refl) eq_refl).
  - exact (proj2 (blank_input_rejected (stub_libs stereo16) (String "160" "")
                    (fresh_world 0)
                    (Exn CouldntDecodeError
                       "Decoding failed. ffmpeg returned error code: 1")
                    eq_refl eq_refl) eq_refl).
Defined.

(** C3 fails: on the empty string and on a string of spaces the stage
    calls the base64 decoder and then the container decoder, and what it
    raises is the [ValueError] of every other failure. *)
Lemma blank_input_counterexample :
  base64_to_audio (stub_libs stereo16) "" (fresh_world 0) =
    (Raise (Exn ValueError
       "Error processing audio: Decoding failed. ffmpeg returned error code: 1"),
     World (fun _ => 0) [EvB64Decode; EvFromFile]) /\
  base64_to_audio (stub_libs stereo16) "   " (fresh_world 0) =
    (Raise (Exn ValueError
       "Error processing audio: Decoding failed. ffmpeg returned error code: 1"),
     World (fun _ => 0) [EvB64Decode; EvFromFile]).
Proof. split; reflexivity. Qed.

(** ** The pipeline *)

(** [detect] stage by stage. *)
Lemma detect_unfold L s w :
  detect L s w =
    match base64_to_audio L s w with
    | (Raise e, w1) =>
        (Raise (Exn ValueError ("Detection error: " ++ exn_str e)), w1)
    | (Ok (audio_array, sr), w1) =>
        match extract_features L audio_array sr w1 with
        | (Raise e, w2) =>
            (Raise (Exn ValueError ("Detection error: " ++ exn_str e)), w2)
        | (Ok features, w2) =>
            match _calculate_ai_score features w2 with
            | (Raise e, w3) =>
                (Raise (Exn ValueError ("Detection error: " ++ exn_str e)), w3)
            | (Ok ai_score, w3) => (Ok (classify ai_score), w3)
            end
        end
    end.
Proof.
  unfold detect. unfold try_except at 1. unfold bind at 1.
  destruct (base64_to_audio L s w) as [[[audio_array sr] | e] w1];
    [| reflexivity].
  unfold bind at 1.
  destruct (extract_features L audio_array sr w1) as [[features | e] w2];
    [| reflexivity].
  unfold bind at 1.
  destruct (_calculate_ai_score features w2) as [[ai_score | e] w3];
    reflexivity.
Qed.

(** A successful detection went through every stage. *)
Lemma detect_ok_inv L s w r w' :
  detect L s w = (Ok r, w') ->
  exists audio_array sr w1 features w2 ai_score,
    base64_to_audio L s w = (Ok (audio_array, sr), w1) /\
    extract_features L audio_array sr w1 = (Ok features, w2) /\
    _calculate_ai_score features w2 = (Ok ai_score, w') /\
    r = classify ai_score.
Proof.
  rewrite detect_unfold.
  destruct (base64_to_audio L s w) as [[[audio_array sr] | e] w1] eqn:H1;
    [| discriminate].
  destruct (extract_features L audio_array sr w1) as [[features | e] w2] eqn:H2;
    [| discriminate].
  destruct (_calculate_ai_score features w2) as [[ai_score | e] w3] eqn:H3;
    [| discriminate].
  intros [= <- <-]. now exists audio_array, sr, w1, features, w2, ai_score.
Qed.

(** The two stages of the audio processor raise [ValueError] only. *)
Lemma base64_to_audio_raise L s w e w' :
  base64_to_audio L s w = (Raise e, w') ->
  exn_class_of e = ValueError /\
  exists msg, exn_str e = ("Error processing audio: " ++ msg)%string.
Proof.
  unfold base64_to_audio, try_except.
  match goal with |- context [match ?m w with _ => _ end] =>
    destruct (m w) as [[a | e1] w1] end.
  - discriminate.
  - unfold raise. intros [= <- _]. split; [reflexivity | now eexists].
Qed.

Lemma extract_features_raise L y sr w e w' :
  extract_features L y sr w = (Raise e, w') ->
  exn_class_of e = ValueError /\
  exists msg, exn_str e = ("Error extracting features: " ++ msg)%string.
Proof.
  unfold extract_features, try_except.
  match goal with |- context [match ?m w with _ => _ end] =>
    destruct (m w) as [[a | e1] w1] end.
  - discriminate.
  - unfold raise. intros [= <- _]. split; [reflexivity | now eexists].
Qed.

(** What a successful extraction holds: the 21 statistics, in the order
    the code stores them, among them the six the scorer reads, each of the
    shape the scorer expects. *)
Lemma extract_features_statistics L y sr w features w' :
  extract_features L y sr w = (Ok features, w') ->
  exists mfcc_var chroma_std tonnetz_std spectral_centroid_var rms_var zcr_std,
    getitem features "mfcc_var" = Ok (Vector mfcc_var) /\
    getitem features "spectral_centroid_var" = Ok (Scalar spectral_centroid_var) /\
    getitem features "rms_var" = Ok (Scalar rms_var) /\
    getitem features "chroma_std" = Ok (Vector chroma_std) /\
    getitem features "tonnetz_std" = Ok (Vector tonnetz_std) /\
    getitem features "zcr_std" = Ok (Scalar zcr_std) /\
    keys features =
      ["mfcc_mean"; "mfcc_std"; "mfcc_var"; "spectral_centroid_mean";
       "spectral_centroid_std"; "spectral_centroid_var"; "zcr_mean"; "zcr_std";
       "spectral_rolloff_mean"; "spectral_rolloff_std"; "chroma_mean";
       "chroma_std"; "rms_mean"; "rms_std"; "rms_var"; "mel_spec_mean";
       "mel_spec_std"; "spectral_contrast_mean"; "spectral_contrast_std";
       "tonnetz_mean"; "tonnetz_std"]%string.
Proof.
  unfold extract_features. run_monad.
  repeat match goal with
    | |- context [match ?r with Ok _ => _ | Raise _ => _ end] =>
        destruct r as [? | ?]; run_monad; try discriminate
    end.
  intros [= <- _]. do 6 eexists. repeat split; reflexivity.
Qed.

(** After a successful extraction the scorer finds every key: within
    [detect] the scoring stage does not fail. *)
Lemma score_after_extraction L y sr w features w' :
  extract_features L y sr w = (Ok features, w') ->
  exists ai_score,
    _calculate_ai_score features w' =
      (Ok ai_score, World (fun n => gauss w' (S n)) (log w' ++ [EvRandomNormal])).
Proof.
  intros H.
  destruct (extract_features_statistics L y sr w features w' H)
    as (v1 & v2 & v3 & x1 & x2 & x3 & H1 & H2 & H3 & H4 & H5 & H6 & _).
  unfold _calculate_ai_score.
  destruct feature_weights_items as (-> & -> & -> & -> & -> & ->).
  rewrite H1, H2, H3, H4, H5, H6. run_pure. now eexists.
Qed.

(** C4. Whichever stage fails, [detect] raises a [ValueError] whose message
    is "Detection error: " followed by the message of the failure, in the
    world the failing stage left: no later stage has run.  Decoding and
    normalising fail together, as [base64_to_audio]; the scorer does not
    fail on what the extractor returns.  [detect] returns either this error
    or the label and confidence of a score every stage contributed to. *)
Theorem detect_failure (L : Libs) (s : string) (w : world) :
  (forall e w1,
     base64_to_audio L s w = (Raise e, w1) ->
     detect L s w =
       (Raise (Exn ValueError ("Detection error: " ++ exn_str e)), w1)) /\
  (forall audio_array sr w1 e w2,
     base64_to_audio L s w = (Ok (audio_array, sr), w1) ->
     extract_features L audio_array sr w1 = (Raise e, w2) ->
     detect L s w =
       (Raise (Exn ValueError ("Detection error: " ++ exn_str e)), w2)) /\
  (forall audio_array sr w1 features w2,
     base64_to_audio L s w = (Ok (audio_array, sr), w1) ->
     extract_features L audio_array sr w1 = (Ok features, w2) ->
     exists ai_score w3,
       _calculate_ai_score features w2 = (Ok ai_score, w3) /\
       detect L s w = (Ok (classify ai_score), w3)) /\
  (forall e w',
     detect L s w = (Raise e, w') ->
     exn_class_of e = ValueError /\
     exists msg, exn_str e = ("Detection error: " ++ msg)%string) /\
  (forall r w',
     detect L s w = (Ok r, w') ->
     exists audio_array sr w1 features w2 ai_score,
       base64_to_audio L s w = (Ok (audio_array, sr), w1) /\
       extract_features L audio_array sr w1 = (Ok features, w2) /\
       _calculate_ai_score features w2 = (Ok ai_score, w') /\
       r = classify ai_score).
Proof.
  split; [| split; [| split; [| split]]].
  - intros e w1 H1. rewrite detect_unfold, H1. reflexivity.
  - intros audio_array sr w1 e w2 H1 H2. rewrite detect_unfold, H1, H2.
    reflexivity.
  - intros audio_array sr w1 features w2 H1 H2.
    destruct (score_after_extraction L audio_array sr w1 features w2 H2)
      as [ai_score H3].
    exists ai_score. eexists. split; [exact H3 |].
    rewrite detect_unfold, H1, H2, H3. reflexivity.
  - intros e w'. rewrite detect_unfold.
    destruct (base64_to_audio L s w) as [[[audio_array sr] | e1] w1].
    + destruct (extract_features L audio_array sr w1) as [[features | e2] w2].
      * destruct (_calculate_ai_score features w2) as [[ai_score | e3] w3];
          [discriminate |].
        intros [= <- _]. split; [reflexivity | now eexists].
      * intros [= <- _]. split; [reflexivity | now eexists].
    + intros [= <- _]. split; [reflexivity | now eexists].
  - apply detect_ok_inv.
Qed.

(** A payload with a truncated base64 quad: the failure of the first
    stage surfaces, and only the base64 decoder was called. *)
Lemma detect_failure_witness :
  detect (stub_libs stereo16) "AA" (fresh_world 0) =
    (Raise (Exn ValueError
       "Detection error: Error processing audio: Incorrect padding"),
     logged (fresh_world 0) [EvB64Decode]).
Proof.
  exact (proj1 (detect_failure (stub_libs stereo16) "AA" (fresh_world 0))
           (Exn ValueError "Error processing audio: Incorrect padding")
           (logged (fresh_world 0) [EvB64Decode]) eq_refl).
Defined.

(** ** Determinism and the confidence of a detection *)

(** The scorer reads the world through the next deviate only. *)
Lemma calculate_ai_score_noise features w1 w2 :
  gauss w1 0%nat = gauss w2 0%nat ->
  fst (_calculate_ai_score features w1) = fst (_calculate_ai_score features w2).
Proof.
  intros Hz. scorer_cases; first [reflexivity | now rewrite Hz].
Qed.

(** C9. With the perturbation fixed to zero the score is a function of the
    feature set: whatever the generator holds beyond its next deviate and
    whatever calls were made before, two evaluations on the same feature
    set return the same score, or raise the same error. *)
Theorem score_deterministic (features : dict value) (w1 w2 : world) :
  0.05 * gauss w1 0%nat = 0 -> 0.05 * gauss w2 0%nat = 0 ->
  fst (_calculate_ai_score features w1) = fst (_calculate_ai_score features w2).
Proof.
  intros H1 H2. apply calculate_ai_score_noise. lra.
Qed.

(** Two generators that agree on a first deviate of zero only, after
    different histories. *)
Lemma score_deterministic_witness :
  fst (_calculate_ai_score flat_features (fresh_world 0)) =
  fst (_calculate_ai_score flat_features
         (World (fun n => INR n) [EvB64Decode; EvFromFile])).
Proof.
  apply (score_deterministic flat_features (fresh_world 0)
           (World (fun n => INR n) [EvB64Decode; EvFromFile]));
    cbn [gauss fresh_world INR]; lra.
Defined.

(** C10. A successful detection never reports a confidence below 0.5.  The
    detection went through decoding and extraction, and the score named
    here is the one [_calculate_ai_score] returned for the extracted
    features: it lies in [0, 1]; at 0.5 or above the label is AI_GENERATED
    and the confidence is that score, below 0.5 the label is HUMAN and the
    confidence is one minus that score, which exceeds 0.5. *)
Theorem detect_confidence_ge_half (L : Libs) (s : string) (w w' : world)
    (classification : string) (confidence : R) :
  detect L s w = (Ok (classification, confidence), w') ->
  exists (audio_array : list R) (sr : Z) (w1 : world)
         (features : dict value) (w2 : world) (ai_score : R),
    base64_to_audio L s w = (Ok (audio_array, sr), w1) /\
    extract_features L audio_array sr w1 = (Ok features, w2) /\
    _calculate_ai_score features w2 = (Ok ai_score, w') /\
    0 <= ai_score <= 1 /\
    (0.5 <= ai_score /\ classification = "AI_GENERATED"%string /\
     confidence = ai_score \/
     ai_score < 0.5 /\ classification = "HUMAN"%string /\
     confidence = 1 - ai_score /\ 0.5 < confidence) /\
    0.5 <= confidence.
Proof.
  intros H.
  destruct (detect_ok_inv L s w _ w' H)
    as (audio_array & sr & w1 & features & w2 & ai_score & Ha & He & Hs & Hr).
  pose proof (calculate_ai_score_range features w2 ai_score w' Hs) as Hrange.
  exists audio_array, sr, w1, features, w2, ai_score.
  do 4 (split; [assumption |]).
  destruct (Rle_lt_dec 0.5 ai_score) as [Hge | Hlt].
  - rewrite classify_ai, clamp_id in Hr by assumption.
    injection Hr as -> ->. split; [left |]; auto.
  - rewrite classify_human, clamp_id in Hr by lra.
    injection Hr as -> ->. split; [right; repeat split; auto |]; lra.
Qed.

(** ** Worked examples *)

Lemma tanh_zero x : x = 0 -> tanh x = 0.
Proof.
  intros ->. unfold tanh. rewrite sinh_0, cosh_0. lra.
Qed.

Lemma Rsum_zeros xs : Forall (fun x => x = 0) xs -> Rsum xs = 0.
Proof.
  induction 1 as [| x xs Hx _ IH]; [reflexivity |].
  unfold Rsum in *. cbn [fold_right]. rewrite IH, Hx. lra.
Qed.

Lemma mean_zeros xs : Forall (fun x => x = 0) xs -> mean xs = 0.
Proof.
  intros H. unfold mean. rewrite Rsum_zeros by exact H. unfold Rdiv. lra.
Qed.

Lemma var_zeros xs : Forall (fun x => x = 0) xs -> var xs = 0.
Proof.
  intros H. unfold var. apply mean_zeros. apply Forall_map.
  rewrite (mean_zeros xs H). eapply Forall_impl; [exact H |].
  intros x ->. cbv beta. lra.
Qed.

Lemma std_zeros xs : Forall (fun x => x = 0) xs -> std xs = 0.
Proof.
  intros H. unfold std. rewrite var_zeros by exact H. apply sqrt_0.
Qed.

(** All six statistics at zero and no perturbation: every sub-score is one
    and the score is the sum of the weights. *)
Lemma calculate_ai_score_formula_witness :
  _calculate_ai_score flat_features (fresh_world 0) =
    (Ok 1, logged (fresh_world 0) [EvRandomNormal]).
Proof.
  destruct (calculate_ai_score_formula flat_features (fresh_world 0)
              [0] [0; 0; 0] [0; 0] 0 0 0
              eq_refl ltac:(discriminate) eq_refl eq_refl
              eq_refl ltac:(discriminate) eq_refl ltac:(discriminate) eq_refl)
    as [Heq _].
  rewrite Heq. clear Heq. unfold logged. cbn [gauss log fresh_world app].
  repeat rewrite tanh_zero by (unfold Rsum; simpl; lra).
  replace (Rmin 1 _) with 1; [rewrite Rmax_right by lra; reflexivity |].
  symmetry. apply Rmin_left. lra.
Defined.

(** Evaluates the pipeline on the stand-in libraries, leaving the real
    arithmetic as it stands. *)
Ltac run_stub :=
  lazy -[Rplus Rmult Rminus Rdiv Rinv Ropp IZR INR tanh sqrt mean var std
         classify py_max py_min Rge_dec Rlt_dec Rgt_dec];
  repeat rewrite var_zeros by repeat constructor;
  repeat rewrite std_zeros by repeat constructor;
  repeat rewrite mean_zeros by repeat constructor;
  repeat rewrite tanh_zero by lra.

(** Constant frames and no perturbation: the score is 1. *)
Lemma detect_regular_signal :
  detect (stub_libs stereo16) "AAAA" (fresh_world 0) =
    (Ok ("AI_GENERATED"%string, 1), logged (fresh_world 0) full_run).
Proof.
  run_stub.
  match goal with |- (Ok (classify ?x), _) = _ =>
    replace x with 1 by (rewrite clamp_id by lra; lra) end.
  rewrite classify_ai by lra. rewrite clamp_id by lra. reflexivity.
Qed.

(** The same frames under a perturbation of -1: the score is 0, the label
    HUMAN and the confidence 1. *)
Lemma detect_perturbed_signal :
  detect (stub_libs stereo16) "AAAA" (fresh_world (-20)) =
    (Ok ("HUMAN"%string, 1), logged (fresh_world (-20)) full_run).
Proof.
  run_stub.
  match goal with |- (Ok (classify ?x), _) = _ =>
    replace x with 0 by (rewrite clamp_id by lra; lra) end.
  rewrite classify_human by lra. rewrite clamp_id by lra.
  repeat f_equal. lra.
Qed.

(** A payload without frames: the first feature transform refuses it, and
    neither the other transforms nor the generator are called. *)
Lemma detect_empty_signal :
  detect (stub_libs empty16) "AAAA" (fresh_world 0) =
    (Raise (Exn ValueError
       "Detection error: Error extracting features: Audio buffer is empty"),
     logged (fresh_world 0) [EvB64Decode; EvFromFile; EvFeature "mfcc"]).
Proof. reflexivity. Qed.

(** A feature set without the statistics of the scorer: the lookup fails
    with a [KeyError] naming the key. *)
Lemma calculate_ai_score_missing_key :
  _calculate_ai_score [("zcr_std", Scalar 0)]%string (fresh_world 0) =
    (Raise (Exn KeyError "'mfcc_var'"), fresh_world 0).
Proof. reflexivity. Qed.

(** The stand-in payload under a perturbation of -1: the scorer returns 0,
    the label is HUMAN and the confidence is 1 - 0. *)
Lemma detect_confidence_ge_half_witness :
  exists (audio_array : list R) (sr : Z) (w1 : world)
         (features : dict value) (w2 : world) (ai_score : R),
    base64_to_audio (stub_libs stereo16) "AAAA" (fresh_world (-20)) =
      (Ok (audio_array, sr), w1) /\
    extract_features (stub_libs stereo16) audio_array sr w1 =
      (Ok features, w2) /\
    _calculate_ai_score features w2 =
      (Ok ai_score, logged (fresh_world (-20)) full_run) /\
    0 <= ai_score <= 1 /\
    (0.5 <= ai_score /\ "HUMAN"%string = "AI_GENERATED"%string /\
     1 = ai_score \/
     ai_score < 0.5 /\ "HUMAN"%string = "HUMAN"%string /\
     1 = 1 - ai_score /\ 0.5 < 1) /\
    0.5 <= 1.
Proof.
  exact (detect_confidence_ge_half (stub_libs stereo16) "AAAA"
           (fresh_world (-20)) (logged (fresh_world (-20)) full_run)
           "HUMAN" 1 detect_perturbed_signal).
Defined.

(** * Further properties of the pipeline *)

(** ** [base64_to_audio] *)

(** X1. A successful call reports the target rate, 22050, whatever the
    rate of the container; the payload went through the base64 decoder, the
    container decoder and the downmix, and the resampler was called exactly
    when the rate of the container is not the target rate. *)
Theorem base64_to_audio_success (L : Libs) (s : string) (w w' : world)
    (out : list R) (sr : Z) :
  base64_to_audio L s w = (Ok (out, sr), w') ->
  sr = 22050%Z /\
  exists audio_bytes seg mono,
    b64decode s = Ok audio_bytes /\ from_file L audio_bytes = Ok seg /\
    to_mono seg (to_float seg (get_array_of_samples seg)) = Ok mono /\
    (frame_rate seg = 22050%Z /\ out = mono /\
     w' = logged w [EvB64Decode; EvFromFile] \/
     frame_rate seg <> 22050%Z /\
     resample L mono (frame_rate seg) 22050 = Ok out /\
     w' = logged w [EvB64Decode; EvFromFile; EvResample]).
Proof.
  destruct (b64decode s) as [audio_bytes | e] eqn:Hb;
    [| rewrite (base64_to_audio_bad_base64 L s w e Hb); discriminate].
  destruct (from_file L audio_bytes) as [seg | e] eqn:Hf;
    [| rewrite (base64_to_audio_bad_container L s w audio_bytes e Hb Hf);
       discriminate].
  rewrite (base64_to_audio_decoded L s w audio_bytes seg Hb Hf).
  destruct (to_mono seg _) as [mono | e] eqn:Hm; [| discriminate].
  destruct (Z.eqb_spec (frame_rate seg) 22050) as [Hrate | Hrate].
  - intros [= <- <- <-]. split; [reflexivity |].
    exists audio_bytes, seg, mono. auto 10.
  - destruct (resample L mono (frame_rate seg) 22050) as [y | e] eqn:Hr;
      [| discriminate].
    intros [= <- <- <-]. split; [reflexivity |].
    exists audio_bytes, seg, mono. auto 10.
Qed.

(** A mono payload at 44100 Hz: the stand-in resampler is called and the
    rate reported is 22050. *)

Lemma base64_to_audio_success_witness :
  22050%Z = 22050%Z /\
  exists audio_bytes seg mono,
    b64decode "AAAA" = Ok audio_bytes /\
    from_file (stub_libs fast16) audio_bytes = Ok seg /\
    to_mono seg (to_float seg (get_array_of_samples seg)) = Ok mono /\
    (frame_rate seg = 22050%Z /\ [8192 / 32768; -8192 / 32768] = mono /\
     logged (fresh_world 0) [EvB64Decode; EvFromFile; EvResample] =
       logged (fresh_world 0) [EvB64Decode; EvFromFile] \/
     frame_rate seg <> 22050%Z /\
     resample (stub_libs fast16) mono (frame_rate seg) 22050 =
       Ok [8192 / 32768; -8192 / 32768] /\
     logged (fresh_world 0) [EvB64Decode; EvFromFile; EvResample] =
       logged (fresh_world 0) [EvB64Decode; EvFromFile; EvResample]).
Proof.
  exact (base64_to_audio_success (stub_libs fast16) "AAAA" (fresh_world 0)
           _ _ _ fast16_buffer).
Defined.

(** X2. Every failure of [base64_to_audio] is a [ValueError] whose message
    is "Error processing audio: " followed by the message of the step that
    failed: the base64 decoder, the container decoder, the reshape of the
    downmix or the resampler.  No step after the failing one was called,
    and the generator is untouched. *)
Theorem base64_to_audio_failure (L : Libs) (s : string) (w w' : world) (e : exn) :
  base64_to_audio L s w = (Raise e, w') ->
  exn_class_of e = ValueError /\ gauss w' = gauss w /\
  exists e0 : exn,
    exn_str e = ("Error processing audio: " ++ exn_str e0)%string /\
    (b64decode s = Raise e0 /\ log w' = log w ++ [EvB64Decode] \/
     exists audio_bytes,
       b64decode s = Ok audio_bytes /\
       (from_file L audio_bytes = Raise e0 /\
        log w' = log w ++ [EvB64Decode; EvFromFile] \/
        exists seg,
          from_file L audio_bytes = Ok seg /\
          (to_mono seg (to_float seg (get_array_of_samples seg)) = Raise e0 /\
           log w' = log w ++ [EvB64Decode; EvFromFile] \/
           exists mono,
             to_mono seg (to_float seg (get_array_of_samples seg)) = Ok mono /\
             frame_rate seg <> 22050%Z /\
             resample L mono (frame_rate seg) 22050 = Raise e0 /\
             log w' = log w ++ [EvB64Decode; EvFromFile; EvResample]))).
Proof.
  destruct (b64decode s) as [audio_bytes | e0] eqn:Hb.
  2:{ rewrite (base64_to_audio_bad_base64 L s w e0 Hb).
      intros [= <- <-]. repeat split. exists e0. auto. }
  destruct (from_file L audio_bytes) as [seg | e0] eqn:Hf.
  2:{ rewrite (base64_to_audio_bad_container L s w audio_bytes e0 Hb Hf).
      intros [= <- <-]. repeat split. exists e0. split; [first [reflexivity | assumption] |].
      right. exists audio_bytes. auto. }
  rewrite (base64_to_audio_decoded L s w audio_bytes seg Hb Hf).
  destruct (to_mono seg _) as [mono | e0] eqn:Hm.
  2:{ intros [= <- <-]. repeat split. exists e0. split; [first [reflexivity | assumption] |].
      right. exists audio_bytes. split; [first [reflexivity | assumption] |].
      right. exists seg. auto. }
  destruct (Z.eqb_spec (frame_rate seg) 22050) as [Hrate | Hrate];
    [discriminate |].
  destruct (resample L mono (frame_rate seg) 22050) as [y | e0] eqn:Hr;
    [discriminate |].
  intros [= <- <-]. repeat split. exists e0. split; [first [reflexivity | assumption] |].
  right. exists audio_bytes. split; [first [reflexivity | assumption] |].
  right. exists seg. split; [first [reflexivity | assumption] |].
  right. exists mono. auto.
Qed.

(** X3. A two-channel payload with an odd number of samples is refused by
    the reshape of the downmix: the stage raises its [ValueError] with
    numpy's message, and the resampler is not called. *)
Theorem torn_stereo_rejected (L : Libs) (s : string) (w : world)
    (audio_bytes : list byte) (seg : AudioSegment) :
  b64decode s = Ok audio_bytes -> from_file L audio_bytes = Ok seg ->
  channels seg = 2%Z ->
  Nat.odd (length (get_array_of_samples seg)) = true ->
  base64_to_audio L s w =
    (Raise (Exn ValueError
       ("Error processing audio: cannot reshape array of size "
        ++ pretty (length (get_array_of_samples seg)) ++ " into shape (2)")),
     logged w [EvB64Decode; EvFromFile]).
Proof.
  intros Hb Hf Hc Hodd.
  rewrite (base64_to_audio_decoded L s w audio_bytes seg Hb Hf).
  unfold to_mono, reshape2. rewrite Hc. cbn [Z.eqb Pos.eqb].
  rewrite length_to_float.
  rewrite <- Nat.negb_odd, Hodd. reflexivity.
Qed.

Lemma torn_stereo_rejected_witness :
  base64_to_audio (stub_libs torn16) "AAAA" (fresh_world 0) =
    (Raise (Exn ValueError
       "Error processing audio: cannot reshape array of size 3 into shape (2)"),
     logged (fresh_world 0) [EvB64Decode; EvFromFile]).
Proof.
  exact (torn_stereo_rejected (stub_libs torn16) "AAAA" (fresh_world 0)
           [x00; x00; x00]%byte torn16 eq_refl eq_refl eq_refl eq_refl).
Defined.

Lemma base64_to_audio_failure_witness :
  exn_class_of (Exn ValueError "Error processing audio: Incorrect padding")
    = ValueError /\
  gauss (logged (fresh_world 0) [EvB64Decode]) = gauss (fresh_world 0).
Proof.
  destruct (base64_to_audio_failure (stub_libs stereo16) "AA" (fresh_world 0)
              (logged (fresh_world 0) [EvB64Decode])
              (Exn ValueError "Error processing audio: Incorrect padding")
              eq_refl) as (Hclass & Hgauss & _).
  split; assumption.
Defined.

(** ** [extract_features] *)

(** X4. [extract_features] calls the nine feature transforms in a fixed
    order and stops at the first one that fails, be it by the call or by
    the [[0]] on its result: when the transform at position [n] is the
    first to fail, with error [e], the calls made are exactly the first
    [n + 1] of the nine, none after the failing one, and what is raised is
    the [ValueError] "Error extracting features: " followed by the message
    of [e]; when no transform fails, all nine are called, once each, and a
    feature set is returned.  The generator is left untouched. *)
Theorem extract_features_trace (L : Libs) (y : list R) (sr : Z) (w : world) :
  gauss (snd (extract_features L y sr w)) = gauss w /\
  match first_failure (transform_failures L y sr) with
  | Some (n, e) =>
      extract_features L y sr w =
        (Raise (Exn ValueError ("Error extracting features: " ++ exn_str e)),
         logged w (take (S n) feature_calls))
  | None =>
      exists features : dict value,
        extract_features L y sr w = (Ok features, logged w feature_calls)
  end.
Proof.
  unfold extract_features, transform_failures, failure, logged, feature_calls.
  run_monad.
  repeat match goal with
    | |- context [match ?r with Ok _ => _ | Raise _ => _ end] =>
        lazymatch r with
        | fst _ => fail
        | _ => destruct r as [? | ?]; run_monad; cbn [first_failure]
        end
    end;
    cbn [fst snd gauss log take]; (split; [reflexivity |]);
    repeat rewrite <- app_assoc; cbn [app];
    first [reflexivity | eexists; reflexivity].
Qed.

(** X5. What [extract_features] returns holds the 21 statistics under
    distinct names, in the order the code stores them, and the scorer
    accepts it: within [detect] the scoring stage finds every key and
    returns a score of the unit interval. *)
Theorem extracted_features_are_scored (L : Libs) (y : list R) (sr : Z)
    (w w' : world) (features : dict value) :
  extract_features L y sr w = (Ok features, w') ->
  keys features =
    ["mfcc_mean"; "mfcc_std"; "mfcc_var"; "spectral_centroid_mean";
     "spectral_centroid_std"; "spectral_centroid_var"; "zcr_mean"; "zcr_std";
     "spectral_rolloff_mean"; "spectral_rolloff_std"; "chroma_mean";
     "chroma_std"; "rms_mean"; "rms_std"; "rms_var"; "mel_spec_mean";
     "mel_spec_std"; "spectral_contrast_mean"; "spectral_contrast_std";
     "tonnetz_mean"; "tonnetz_std"]%string /\
  NoDup (keys features) /\
  exists ai_score : R,
    _calculate_ai_score features w' =
      (Ok ai_score,
       World (fun n => gauss w' (S n)) (log w' ++ [EvRandomNormal])) /\
    0 <= ai_score <= 1.
Proof.
  intros H.
  destruct (extract_features_statistics L y sr w features w' H)
    as (v1 & v2 & v3 & x1 & x2 & x3 & _ & _ & _ & _ & _ & _ & Hkeys).
  destruct (score_after_extraction L y sr w features w' H) as [ai_score Hs].
  split; [exact Hkeys |]. split.
  - rewrite Hkeys. apply (bool_decide_unpack _). vm_compute. exact I.
  - exists ai_score. split; [exact Hs |].
    eapply calculate_ai_score_range. exact Hs.
Qed.

(** The stand-in transforms on a signal of one sample. *)
Lemma extracted_features_are_scored_witness :
  exists (features : dict value) (w' : world) (ai_score : R),
    extract_features (stub_libs stereo16) [1] 22050 (fresh_world 0) =
      (Ok features, w') /\
    length (keys features) = 21%nat /\
    fst (_calculate_ai_score features w') = Ok ai_score /\
    0 <= ai_score <= 1.
Proof.
  destruct (extracted_features_are_scored (stub_libs stereo16) [1] 22050
              (fresh_world 0) _ _ eq_refl)
    as (Hkeys & _ & ai_score & Hs & Hrange).
  do 2 eexists. exists ai_score.
  split; [reflexivity |]. split; [now rewrite Hkeys |].
  split; [now rewrite Hs | exact Hrange].
Defined.

(** ** [flatten_features] after [extract_features] *)

(** X6. The flat vector of an extraction lays the statistics out by name:
    chroma mean and std, mel mean and std, mfcc mean, std and var, rms
    mean, std and var, spectral centroid mean, std and var, spectral
    contrast mean and std, spectral rolloff mean and std, tonnetz mean and
    std, zero-crossing mean and std; an array contributes one entry per
    row of its transform.  [flatten_features] does not fail on it. *)
Theorem flatten_extracted (L : Libs) (y : list R) (sr : Z) (w w' : world)
    (features : dict value) :
  extract_features L y sr w = (Ok features, w') ->
  exists (m_mfcc m_chroma m_mel m_contrast m_tonnetz : matrix)
         (centroid zcr rolloff energy : list R) (r1 r2 r3 r4 : matrix),
    mfcc L y sr 13 512 = Ok m_mfcc /\
    spectral_centroid L y sr 512 = Ok (centroid :: r1) /\
    zero_crossing_rate L y 512 = Ok (zcr :: r2) /\
    spectral_rolloff L y sr 512 = Ok (rolloff :: r3) /\
    chroma_stft L y sr 512 = Ok m_chroma /\
    rms L y 512 = Ok (energy :: r4) /\
    melspectrogram L y sr 512 = Ok m_mel /\
    spectral_contrast L y sr 512 = Ok m_contrast /\
    tonnetz L y sr = Ok m_tonnetz /\
    flatten_features features =
      Ok (map mean m_chroma ++ map std m_chroma ++
          [mean (concat m_mel); std (concat m_mel)] ++
          map mean m_mfcc ++ map std m_mfcc ++ map var m_mfcc ++
          [mean energy; std energy; var energy] ++
          [mean centroid; std centroid; var centroid] ++
          map mean m_contrast ++ map std m_contrast ++
          [mean rolloff; std rolloff] ++
          map mean m_tonnetz ++ map std m_tonnetz ++
          [mean zcr; std zcr]).
Proof.
  unfold extract_features. run_monad.
  unfold config.N_MFCC, config.HOP_LENGTH.
  destruct (mfcc L y sr 13 512) as [m_mfcc | ?]; run_monad; [| discriminate].
  destruct (spectral_centroid L y sr 512) as [[| centroid r1] | ?]; run_monad;
    try discriminate.
  destruct (zero_crossing_rate L y 512) as [[| zcr r2] | ?]; run_monad;
    try discriminate.
  destruct (spectral_rolloff L y sr 512) as [[| rolloff r3] | ?]; run_monad;
    try discriminate.
  destruct (chroma_stft L y sr 512) as [m_chroma | ?]; run_monad;
    [| discriminate].
  destruct (rms L y 512) as [[| energy r4] | ?]; run_monad; try discriminate.
  destruct (melspectrogram L y sr 512) as [m_mel | ?]; run_monad;
    [| discriminate].
  destruct (spectral_contrast L y sr 512) as [m_contrast | ?]; run_monad;
    [| discriminate].
  destruct (tonnetz L y sr) as [m_tonnetz | ?]; run_monad; [| discriminate].
  intros [= <- _].
  exists m_mfcc, m_chroma, m_mel, m_contrast, m_tonnetz, centroid, zcr, rolloff,
    energy, r1, r2, r3, r4.
  repeat (split; [reflexivity |]).
  unfold flatten_features.
  match goal with
  | |- context [sorted ?ks] =>
      let ks' := eval vm_compute in (sorted ks) in change (sorted ks) with ks'
  end.
  lazy -[Rplus Rmult Rminus Rdiv Rinv Ropp IZR INR sqrt mean var std
         app map concat].
  rewrite <- !app_assoc. reflexivity.
Qed.

(** With 13 cepstral coefficients, 12 pitch classes, 7 contrast bands and
    6 tonal dimensions the flat vector has 101 entries. *)
Lemma flatten_extracted_witness :
  exists (features : dict value) (w' : world) (xs : list R),
    extract_features (stub_libs stereo16) [1] 22050 (fresh_world 0) =
      (Ok features, w') /\
    flatten_features features = Ok xs /\ length xs = 101%nat.
Proof.
  destruct (flatten_extracted (stub_libs stereo16) [1] 22050 (fresh_world 0)
              _ _ eq_refl)
    as (m1 & m2 & m3 & m4 & m5 & c & z & r & e & r1 & r2 & r3 & r4 &
        [= <-] & [= <- _] & [= <- _] & [= <- _] & [= <-] & [= <- _] &
        [= <-] & [= <-] & [= <-] & Hflat).
  do 3 eexists. split; [reflexivity |]. split; [exact Hflat |]. reflexivity.
Defined.

(** ** [flatten_features] on any dict *)

Lemma getitem_key {V} (d : dict V) k :
  In k (keys d) -> exists v, getitem d k = Ok v.
Proof.
  induction d as [| [k' v'] d IH]; simpl; [contradiction |].
  intros [-> | Hin].
  - rewrite String.eqb_refl. now eexists.
  - destruct (String.eqb k' k); [now eexists | auto].
Qed.

Lemma flatten_loop_total features ks acc :
  (forall k, In k ks -> In k (keys features)) ->
  exists xs,
    flatten_loop features ks acc = Ok xs /\
    length xs = (length acc + sum_list_with (entries features) ks)%nat.
Proof.
  revert acc. induction ks as [| k ks IH]; intros acc Hin; cbn [flatten_loop].
  - exists acc. split; [reflexivity | simpl; lia].
  - destruct (getitem_key features k) as [v Hv]; [apply Hin; now left |].
    rewrite Hv.
    destruct (IH (acc ++ flatten_value v)) as (xs & Hxs & Hlen);
      [intros k' Hk'; apply Hin; now right |].
    exists xs. split; [exact Hxs |].
    rewrite Hlen, length_app. unfold entries at 2. cbn [sum_list_with].
    unfold entries at 1. rewrite Hv. lia.
Qed.

Lemma sum_entries_items (features d : dict value) :
  NoDup (keys features) -> (forall kv, In kv d -> In kv features) ->
  sum_list_with (entries features) (keys d) =
  sum_list_with (fun kv => length (flatten_value (snd kv))) d.
Proof.
  intros Hnd. induction d as [| [k v] d IH]; intros Hsub; [reflexivity |].
  cbn [keys map fst sum_list_with snd].
  unfold keys in IH. rewrite IH by (intros kv Hkv; apply Hsub; now right).
  unfold entries. rewrite (getitem_In features k v Hnd) by (apply Hsub; now left).
  reflexivity.
Qed.

(** X7. [flatten_features] never raises: every key it looks up comes from
    the dict itself.  The vector it returns has as many entries as the dict
    holds numbers, one for a number and one per element for an array. *)
Theorem flatten_features_never_raises (features : dict value) :
  exists xs : list R,
    flatten_features features = Ok xs /\
    (NoDup (keys features) ->
     length xs =
       sum_list_with (fun kv => length (flatten_value (snd kv))) features).
Proof.
  unfold flatten_features.
  assert (Hperm : Permutation (sorted (keys features)) (keys features))
    by apply merge_sort_Permutation.
  destruct (flatten_loop_total features (sorted (keys features)) [])
    as (xs & Hxs & Hlen).
  { intros k Hk. eapply Permutation_in; eassumption. }
  exists xs. split; [exact Hxs |].
  intros Hnd. rewrite Hlen, Hperm. cbn [length].
  now apply sum_entries_items.
Qed.

Lemma flatten_features_never_raises_witness :
  exists xs : list R,
    flatten_features flat_features = Ok xs /\ length xs = 9%nat.
Proof.
  destruct (flatten_features_never_raises flat_features) as (xs & Hxs & Hlen).
  exists xs. split; [exact Hxs |].
  rewrite Hlen; [reflexivity |].
  apply (bool_decide_unpack _). vm_compute. exact I.
Defined.

(** ** [_calculate_ai_score] *)

(** The scorer on a feature set that holds the six statistics. *)
Lemma calculate_ai_score_run features w v1 v2 v3 x1 x2 x3 :
  getitem features "mfcc_var" = Ok v1 ->
  getitem features "spectral_centroid_var" = Ok (Scalar x1) ->
  getitem features "rms_var" = Ok (Scalar x2) ->
  getitem features "chroma_std" = Ok v2 ->
  getitem features "tonnetz_std" = Ok v3 ->
  getitem features "zcr_std" = Ok (Scalar x3) ->
  _calculate_ai_score features w =
    (Ok (py_max 0 (py_min 1
           (composite (np_mean v1) x1 x2 (np_mean v2) (np_mean v3) x3
            + (0 + 0.05 * gauss w 0%nat)))),
     World (fun n => gauss w (S n)) (log w ++ [EvRandomNormal])).
Proof.
  intros H1 H2 H3 H4 H5 H6. unfold _calculate_ai_score.
  destruct feature_weights_items as (-> & -> & -> & -> & -> & ->).
  rewrite H1, H2, H3, H4, H5, H6. reflexivity.
Qed.

Lemma getitem_raise {V} (d : dict V) k e :
  getitem d k = Raise e ->
  e = Exn KeyError ("'" ++ k ++ "'") /\ ~ In k (keys d).
Proof.
  induction d as [| [k' v'] d IH]; simpl.
  - intros [= <-]. auto.
  - destruct (String.eqb_spec k' k) as [-> | Hne]; [discriminate |].
    intros H. destruct (IH H) as [-> Hnotin]. split; [reflexivity |].
    intros [Heq | Hin]; auto.
Qed.

Lemma tanh_exp x : tanh x = (exp x - exp (- x)) / (exp x + exp (- x)).
Proof.
  unfold tanh, sinh, cosh.
  pose proof (exp_pos x). pose proof (exp_pos (- x)). field. lra.
Qed.

Lemma tanh_lt_1 x : tanh x < 1.
Proof.
  rewrite tanh_exp.
  pose proof (exp_pos x) as Ha. pose proof (exp_pos (- x)) as Hb.
  apply Rmult_lt_reg_r with (exp x + exp (- x)); [lra |].
  unfold Rdiv. rewrite Rmult_assoc, Rinv_l by lra. lra.
Qed.

Lemma exp_le x y : x <= y -> exp x <= exp y.
Proof.
  intros [H | ->]; [left; now apply exp_increasing | right; reflexivity].
Qed.

Lemma tanh_le x y : x <= y -> tanh x <= tanh y.
Proof.
  intros Hxy. rewrite !tanh_exp.
  pose proof (exp_pos x) as Ha. pose proof (exp_pos (- x)) as Hb.
  pose proof (exp_pos y) as Hc. pose proof (exp_pos (- y)) as Hd.
  assert (Hac : exp x <= exp y) by now apply exp_le.
  assert (Hdb : exp (- y) <= exp (- x)) by (apply exp_le; lra).
  apply Rmult_le_reg_r with ((exp x + exp (- x)) * (exp y + exp (- y)));
    [nra |].
  replace ((exp x - exp (- x)) / (exp x + exp (- x)) *
           ((exp x + exp (- x)) * (exp y + exp (- y))))
    with ((exp x - exp (- x)) * (exp y + exp (- y))) by (field; lra).
  replace ((exp y - exp (- y)) / (exp y + exp (- y)) *
           ((exp x + exp (- x)) * (exp y + exp (- y))))
    with ((exp y - exp (- y)) * (exp x + exp (- x))) by (field; lra).
  nra.
Qed.

Lemma tanh_nonneg x : 0 <= x -> 0 <= tanh x.
Proof.
  intros H. rewrite <- (tanh_zero 0 eq_refl). now apply tanh_le.
Qed.

(** Over the reals, a sub-score of a non-negative statistic lies in
    (0, 1]; in floating point it can reach 0. *)
Lemma sub_score_range x d : 0 <= x -> 0 < d -> 0 < 1 - tanh (x / d) <= 1.
Proof.
  intros Hx Hd.
  assert (0 <= x / d) by (apply Rmult_le_pos; [lra | left; now apply Rinv_0_lt_compat]).
  pose proof (tanh_nonneg (x / d) ltac:(assumption)).
  pose proof (tanh_lt_1 (x / d)). lra.
Qed.

Lemma sub_score_le x y d : x <= y -> 0 < d -> 1 - tanh (y / d) <= 1 - tanh (x / d).
Proof.
  intros Hxy Hd.
  assert (x / d <= y / d)
    by (apply Rmult_le_compat_r; [left; now apply Rinv_0_lt_compat | lra]).
  pose proof (tanh_le (x / d) (y / d) ltac:(assumption)). lra.
Qed.

Lemma composite_range m s r c t z :
  0 <= m -> 0 <= s -> 0 <= r -> 0 <= c -> 0 <= t -> 0 <= z ->
  0 < composite m s r c t z <= 1.
Proof.
  intros Hm Hs Hr Hc Ht Hz. unfold composite, py_sum. cbn [fold_left].
  pose proof (sub_score_range m 100 Hm ltac:(lra)).
  pose proof (sub_score_range s 1000000 Hs ltac:(lra)).
  pose proof (sub_score_range r 0.01 Hr ltac:(lra)).
  pose proof (sub_score_range c 0.3 Hc ltac:(lra)).
  pose proof (sub_score_range t 0.2 Ht ltac:(lra)).
  pose proof (sub_score_range z 0.05 Hz ltac:(lra)).
  lra.
Qed.

Lemma composite_le m s r c t z m' s' r' c' t' z' :
  m <= m' -> s <= s' -> r <= r' -> c <= c' -> t <= t' -> z <= z' ->
  composite m' s' r' c' t' z' <= composite m s r c t z.
Proof.
  intros Hm Hs Hr Hc Ht Hz. unfold composite, py_sum. cbn [fold_left].
  pose proof (sub_score_le m m' 100 Hm ltac:(lra)).
  pose proof (sub_score_le s s' 1000000 Hs ltac:(lra)).
  pose proof (sub_score_le r r' 0.01 Hr ltac:(lra)).
  pose proof (sub_score_le c c' 0.3 Hc ltac:(lra)).
  pose proof (sub_score_le t t' 0.2 Ht ltac:(lra)).
  pose proof (sub_score_le z z' 0.05 Hz ltac:(lra)).
  lra.
Qed.

Lemma clamp_le a b : a <= b -> py_max 0 (py_min 1 a) <= py_max 0 (py_min 1 b).
Proof.
  intros H. unfold py_max, py_min.
  destruct (Rlt_dec a 1); destruct (Rlt_dec b 1);
    repeat match goal with
      | |- context [Rgt_dec ?x 0] => destruct (Rgt_dec x 0)
      end; lra.
Qed.

Lemma clamp_lipschitz a b :
  Rabs (py_max 0 (py_min 1 a) - py_max 0 (py_min 1 b)) <= Rabs (a - b).
Proof.
  unfold py_max, py_min.
  destruct (Rlt_dec a 1); destruct (Rlt_dec b 1);
    repeat match goal with
      | |- context [Rgt_dec ?x 0] => destruct (Rgt_dec x 0)
      end;
    unfold Rabs; repeat destruct (Rcase_abs _); lra.
Qed.

Lemma getitem_ok_keys {V} (d : dict V) k v :
  getitem d k = Ok v -> In k (keys d).
Proof.
  induction d as [| [k' v'] d IH]; simpl; [discriminate |].
  destruct (String.eqb_spec k' k) as [-> | Hne]; auto.
Qed.

(** X8. On a feature set whose entries under the three directly read keys
    are numbers, the scorer fails exactly when one of its six keys is
    missing.  The failure is the [KeyError] of a missing key, it comes
    before the draw, and it leaves the generator and the log as they were. *)
Theorem scorer_missing_key (features : dict value) (w : world) :
  (forall k v,
     In k ["spectral_centroid_var"; "rms_var"; "zcr_std"]%string ->
     getitem features k = Ok v -> exists x, v = Scalar x) ->
  ((exists e w', _calculate_ai_score features w = (Raise e, w')) <->
   (exists k, In k scorer_keys /\ ~ In k (keys features))) /\
  (forall e w',
     _calculate_ai_score features w = (Raise e, w') ->
     w' = w /\
     exists k, In k scorer_keys /\ ~ In k (keys features) /\
               e = Exn KeyError ("'" ++ k ++ "'")).
Proof.
  intros Hshape.
  assert (Hfail : forall k e,
            In k scorer_keys -> getitem features k = Raise e ->
            _calculate_ai_score features w = (Raise e, w) ->
            ((exists e w', _calculate_ai_score features w = (Raise e, w')) <->
             (exists k, In k scorer_keys /\ ~ In k (keys features))) /\
            (forall e w',
               _calculate_ai_score features w = (Raise e, w') ->
               w' = w /\
               exists k, In k scorer_keys /\ ~ In k (keys features) /\
                         e = Exn KeyError ("'" ++ k ++ "'"))).
  { intros k e Hk Hget Hrun. destruct (getitem_raise features k e Hget) as [-> Hnotin].
    rewrite Hrun. split.
    - split; intros _; eauto.
    - intros e' w' [= <- <-]. split; [reflexivity |]. exists k. auto. }
  destruct (getitem features "mfcc_var") as [v1 | e] eqn:H1.
  2:{ apply (Hfail "mfcc_var"%string e); [unfold scorer_keys; simpl; tauto | exact H1 |].
      unfold _calculate_ai_score. rewrite H1. reflexivity. }
  destruct (getitem features "spectral_centroid_var") as [v | e] eqn:H2.
  2:{ apply (Hfail "spectral_centroid_var"%string e);
        [unfold scorer_keys; simpl; tauto | exact H2 |].
      unfold _calculate_ai_score.
      destruct feature_weights_items as (-> & _).
      rewrite H1, H2. reflexivity. }
  destruct (Hshape "spectral_centroid_var"%string _ ltac:(simpl; tauto) H2)
    as [x1 ->].
  destruct (getitem features "rms_var") as [v | e] eqn:H3.
  2:{ apply (Hfail "rms_var"%string e); [unfold scorer_keys; simpl; tauto | exact H3 |].
      unfold _calculate_ai_score.
      destruct feature_weights_items as (-> & -> & _).
      rewrite H1, H2, H3. reflexivity. }
  destruct (Hshape "rms_var"%string _ ltac:(simpl; tauto) H3) as [x2 ->].
  destruct (getitem features "chroma_std") as [v2 | e] eqn:H4.
  2:{ apply (Hfail "chroma_std"%string e); [unfold scorer_keys; simpl; tauto | exact H4 |].
      unfold _calculate_ai_score.
      destruct feature_weights_items as (-> & -> & -> & _).
      rewrite H1, H2, H3, H4. reflexivity. }
  destruct (getitem features "tonnetz_std") as [v3 | e] eqn:H5.
  2:{ apply (Hfail "tonnetz_std"%string e); [unfold scorer_keys; simpl; tauto | exact H5 |].
      unfold _calculate_ai_score.
      destruct feature_weights_items as (-> & -> & -> & -> & _).
      rewrite H1, H2, H3, H4, H5. reflexivity. }
  destruct (getitem features "zcr_std") as [v | e] eqn:H6.
  2:{ apply (Hfail "zcr_std"%string e); [unfold scorer_keys; simpl; tauto | exact H6 |].
      unfold _calculate_ai_score.
      destruct feature_weights_items as (-> & -> & -> & -> & -> & _).
      rewrite H1, H2, H3, H4, H5, H6. reflexivity. }
  destruct (Hshape "zcr_std"%string _ ltac:(simpl; tauto) H6) as [x3 ->].
  rewrite (calculate_ai_score_run features w v1 v2 v3 x1 x2 x3 H1 H2 H3 H4 H5 H6).
  split; [split |].
  - intros (e & w' & H). discriminate H.
  - intros (k & Hk & Hnotin). exfalso. apply Hnotin.
    unfold scorer_keys in Hk. simpl in Hk.
    destruct Hk as [<- | [<- | [<- | [<- | [<- | [<- | []]]]]]];
      eauto using getitem_ok_keys.
  - intros e w' H. discriminate H.
Qed.

(** A feature set that holds [zcr_std] only: the first key read is the
    one reported. *)
Lemma scorer_missing_key_witness :
  fresh_world 0 = fresh_world 0 /\
  exists k, In k scorer_keys /\
            ~ In k (keys [("zcr_std", Scalar 0)]%string) /\
            Exn KeyError "'mfcc_var'" = Exn KeyError ("'" ++ k ++ "'").
Proof.
  assert (Hshape : forall k v,
            In k ["spectral_centroid_var"; "rms_var"; "zcr_std"]%string ->
            getitem [("zcr_std", Scalar 0)]%string k = Ok v ->
            exists x, v = Scalar x).
  { intros k v [<- | [<- | [<- | []]]]; cbn; intros [= <-] || intros [=].
    now eexists. }
  exact (proj2 (scorer_missing_key [("zcr_std", Scalar 0)]%string
                  (fresh_world 0) Hshape)
           (Exn KeyError "'mfcc_var'") (fresh_world 0) eq_refl).
Defined.

Lemma mean_nonneg xs : Forall (Rle 0) xs -> 0 <= mean xs.
Proof.
  intros H. unfold mean.
  assert (Hsum : 0 <= Rsum xs).
  { induction H as [| x xs Hx _ IH]; unfold Rsum in *; cbn [fold_right]; lra. }
  destruct xs as [| x xs]; [unfold Rsum, Rdiv; cbn; lra |].
  apply Rmult_le_pos; [exact Hsum |].
  left. apply Rinv_0_lt_compat. apply lt_0_INR. cbn [length]. lia.
Qed.

(** X9. Variances and standard deviations are not negative.  On such
    statistics the weighted sum of the six sub-scores lies in [0, 1], so
    the clamp does not act on it: without perturbation the score is the
    weighted sum itself. *)
Theorem unperturbed_score (features : dict value) (w : world)
    (mfcc_var chroma_std tonnetz_std : list R)
    (spectral_centroid_var rms_var zcr_std : R) :
  getitem features "mfcc_var" = Ok (Vector mfcc_var) ->
  getitem features "spectral_centroid_var" = Ok (Scalar spectral_centroid_var) ->
  getitem features "rms_var" = Ok (Scalar rms_var) ->
  getitem features "chroma_std" = Ok (Vector chroma_std) ->
  getitem features "tonnetz_std" = Ok (Vector tonnetz_std) ->
  getitem features "zcr_std" = Ok (Scalar zcr_std) ->
  mfcc_var <> [] -> chroma_std <> [] -> tonnetz_std <> [] ->
  Forall (Rle 0) mfcc_var -> Forall (Rle 0) chroma_std ->
  Forall (Rle 0) tonnetz_std ->
  0 <= spectral_centroid_var -> 0 <= rms_var -> 0 <= zcr_std ->
  gauss w 0%nat = 0 ->
  fst (_calculate_ai_score features w) =
    Ok (composite (mean mfcc_var) spectral_centroid_var rms_var
          (mean chroma_std) (mean tonnetz_std) zcr_std) /\
  0 <= composite (mean mfcc_var) spectral_centroid_var rms_var
        (mean chroma_std) (mean tonnetz_std) zcr_std <= 1.
Proof.
  intros H1 H2 H3 H4 H5 H6 _ _ _ Hm Hc Ht Hs Hr Hz Hnoise.
  assert (Hrange :
    0 <= composite (mean mfcc_var) spectral_centroid_var rms_var
          (mean chroma_std) (mean tonnetz_std) zcr_std <= 1)
    by (split; [left |]; apply composite_range; auto using mean_nonneg).
  split; [| exact Hrange].
  rewrite (calculate_ai_score_run features w _ _ _ _ _ _ H1 H2 H3 H4 H5 H6).
  cbn [fst np_mean]. rewrite Hnoise. f_equal.
  rewrite clamp_id by lra. lra.
Qed.

Lemma unperturbed_score_witness :
  fst (_calculate_ai_score flat_features (fresh_world 0)) =
    Ok (composite (mean [0]) 0 0 (mean [0; 0; 0]) (mean [0; 0]) 0) /\
  0 <= composite (mean [0]) 0 0 (mean [0; 0; 0]) (mean [0; 0]) 0 <= 1.
Proof.
  apply (unperturbed_score flat_features (fresh_world 0));
    first [reflexivity | discriminate | repeat constructor; lra | lra].
Defined.

(** X10. The score does not grow with the statistics: of two feature sets
    scored under the same perturbation, the one whose six statistics are
    all at least as large gets a score at most as large. *)
Theorem score_antitone (features features' : dict value) (w w' : world)
    (v1 v2 v3 v1' v2' v3' : value) (x1 x2 x3 x1' x2' x3' : R) :
  getitem features "mfcc_var" = Ok v1 ->
  getitem features "spectral_centroid_var" = Ok (Scalar x1) ->
  getitem features "rms_var" = Ok (Scalar x2) ->
  getitem features "chroma_std" = Ok v2 ->
  getitem features "tonnetz_std" = Ok v3 ->
  getitem features "zcr_std" = Ok (Scalar x3) ->
  getitem features' "mfcc_var" = Ok v1' ->
  getitem features' "spectral_centroid_var" = Ok (Scalar x1') ->
  getitem features' "rms_var" = Ok (Scalar x2') ->
  getitem features' "chroma_std" = Ok v2' ->
  getitem features' "tonnetz_std" = Ok v3' ->
  getitem features' "zcr_std" = Ok (Scalar x3') ->
  v1 <> Vector [] -> v2 <> Vector [] -> v3 <> Vector [] ->
  v1' <> Vector [] -> v2' <> Vector [] -> v3' <> Vector [] ->
  np_mean v1 <= np_mean v1' -> x1 <= x1' -> x2 <= x2' ->
  np_mean v2 <= np_mean v2' -> np_mean v3 <= np_mean v3' -> x3 <= x3' ->
  gauss w 0%nat = gauss w' 0%nat ->
  exists ai_score ai_score' : R,
    fst (_calculate_ai_score features w) = Ok ai_score /\
    fst (_calculate_ai_score features' w') = Ok ai_score' /\
    ai_score' <= ai_score.
Proof.
  intros H1 H2 H3 H4 H5 H6 H1' H2' H3' H4' H5' H6' _ _ _ _ _ _
    Hm Hs Hr Hc Ht Hz Hnoise.
  rewrite (calculate_ai_score_run features w _ _ _ _ _ _ H1 H2 H3 H4 H5 H6).
  rewrite (calculate_ai_score_run features' w' _ _ _ _ _ _
             H1' H2' H3' H4' H5' H6').
  do 2 eexists. split; [reflexivity |]. split; [reflexivity |].
  apply clamp_le. rewrite Hnoise.
  pose proof (composite_le _ _ _ _ _ _ _ _ _ _ _ _ Hm Hs Hr Hc Ht Hz). lra.
Qed.

(** X11. The perturbation moves the score by no more than its own size:
    two scores of the same feature set differ by at most 0.05 times the
    difference of the two deviates drawn. *)
Theorem score_noise_bound (features : dict value) (w1 w2 w1' w2' : world)
    (s1 s2 : R) :
  _calculate_ai_score features w1 = (Ok s1, w1') ->
  _calculate_ai_score features w2 = (Ok s2, w2') ->
  Rabs (s1 - s2) <= 0.05 * Rabs (gauss w1 0%nat - gauss w2 0%nat).
Proof.
  scorer_cases; intros E1 E2; try discriminate E1;
    injection E1 as <- _; injection E2 as <- _;
    (eapply Rle_trans; [apply clamp_lipschitz |]);
    match goal with
    | |- Rabs (?a + ?n1 - (?a + ?n2)) <= _ =>
        replace (a + n1 - (a + n2)) with (0.05 * (gauss w1 0%nat - gauss w2 0%nat))
          by lra
    end;
    rewrite Rabs_mult, (Rabs_right 0.05) by lra; lra.
Qed.

Lemma score_antitone_witness :
  exists ai_score ai_score' : R,
    fst (_calculate_ai_score flat_features (fresh_world 0)) = Ok ai_score /\
    fst (_calculate_ai_score busy_features (fresh_world 0)) = Ok ai_score' /\
    ai_score' <= ai_score.
Proof.
  apply (score_antitone flat_features busy_features
           (fresh_world 0) (fresh_world 0)
           (Vector [0]) (Vector [0; 0; 0]) (Vector [0; 0])
           (Vector [50; 150]) (Vector [0.3]) (Vector [0.2])
           0 0 0 1000000 0.01 0.05);
    first [reflexivity | discriminate
          | unfold np_mean, mean, Rsum; cbn [fold_right length INR]; lra
          | lra].
Defined.

Lemma score_noise_bound_witness :
  exists s1 s2 : R,
    fst (_calculate_ai_score flat_features (fresh_world 0)) = Ok s1 /\
    fst (_calculate_ai_score flat_features (fresh_world 1)) = Ok s2 /\
    Rabs (s1 - s2) <= 0.05 * Rabs (0 - 1).
Proof.
  do 2 eexists. split; [reflexivity |]. split; [reflexivity |].
  exact (score_noise_bound flat_features (fresh_world 0) (fresh_world 1)
           _ _ _ _ eq_refl eq_refl).
Defined.

(** ** [detect] *)

Lemma base64_to_audio_gauss L s w :
  gauss (snd (base64_to_audio L s w)) = gauss w.
Proof.
  destruct (b64decode s) as [audio_bytes | e] eqn:Hb;
    [| now rewrite (base64_to_audio_bad_base64 L s w e Hb)].
  destruct (from_file L audio_bytes) as [seg | e] eqn:Hf;
    [| now rewrite (base64_to_audio_bad_container L s w audio_bytes e Hb Hf)].
  rewrite (base64_to_audio_decoded L s w audio_bytes seg Hb Hf).
  destruct (to_mono seg _); [| reflexivity].
  destruct (frame_rate seg =? 22050)%Z; reflexivity.
Qed.

Lemma extract_features_gauss L y sr w :
  gauss (snd (extract_features L y sr w)) = gauss w.
Proof.
  unfold extract_features. run_monad.
  repeat match goal with
    | |- context [match ?r with Ok _ => _ | Raise _ => _ end] =>
        destruct r as [? | ?]; run_monad
    end; reflexivity.
Qed.

(** X12. A detection that returns has drawn exactly one deviate from the
    global generator; a detection that raises has drawn none. *)
Theorem detect_draws_once (L : Libs) (s : string) (w : world) :
  match detect L s w with
  | (Ok _, w') => forall n, gauss w' n = gauss w (S n)
  | (Raise _, w') => gauss w' = gauss w
  end.
Proof.
  rewrite detect_unfold.
  pose proof (base64_to_audio_gauss L s w) as H1.
  destruct (base64_to_audio L s w) as [[[audio_array sr] | e1] w1];
    cbn [snd] in H1; [| exact H1].
  pose proof (extract_features_gauss L audio_array sr w1) as H2.
  destruct (extract_features L audio_array sr w1) as [[features | e2] w2] eqn:He;
    cbn [snd] in H2; [| congruence].
  destruct (score_after_extraction L audio_array sr w1 features w2 He)
    as [ai_score ->].
  intros n. cbn [gauss]. congruence.
Qed.

(** X13. The message of a failed detection names the stage that failed:
    it starts with "Detection error: Error processing audio: " when
    decoding or normalising failed and with "Detection error: Error
    extracting features: " when a feature transform failed.  There is no
    third case: scoring and classifying do not fail inside [detect]. *)
Theorem detect_error_names_stage (L : Libs) (s : string) (w w' : world)
    (e : exn) :
  detect L s w = (Raise e, w') ->
  exn_class_of e = ValueError /\
  exists msg : string,
    (exn_str e = ("Detection error: Error processing audio: " ++ msg)%string /\
     exists e1, base64_to_audio L s w = (Raise e1, w')) \/
    (exn_str e = ("Detection error: Error extracting features: " ++ msg)%string /\
     exists audio_array sr w1 e2,
       base64_to_audio L s w = (Ok (audio_array, sr), w1) /\
       extract_features L audio_array sr w1 = (Raise e2, w')).
Proof.
  rewrite detect_unfold.
  destruct (base64_to_audio L s w) as [[[audio_array sr] | e1] w1] eqn:H1.
  - destruct (extract_features L audio_array sr w1) as [[features | e2] w2] eqn:H2.
    + destruct (score_after_extraction L audio_array sr w1 features w2 H2)
        as [ai_score ->].
      discriminate.
    + intros [= <- <-]. split; [reflexivity |].
      destruct (extract_features_raise L audio_array sr w1 e2 w2 H2)
        as (_ & msg & Hmsg).
      exists msg. right. cbn [exn_str]. rewrite Hmsg. split; [reflexivity |].
      now exists audio_array, sr, w1, e2.
  - intros [= <- <-]. split; [reflexivity |].
    destruct (base64_to_audio_raise L s w e1 w1 H1) as (_ & msg & Hmsg).
    exists msg. left. cbn [exn_str]. rewrite Hmsg. split; [reflexivity |].
    now exists e1.
Qed.

Lemma detect_error_names_stage_witness :
  exn_class_of
    (Exn ValueError
       "Detection error: Error extracting features: Audio buffer is empty")
    = ValueError /\
  exists msg : string,
    (exn_str
       (Exn ValueError
          "Detection error: Error extracting features: Audio buffer is empty")
     = ("Detection error: Error processing audio: " ++ msg)%string /\
     exists e1,
       base64_to_audio (stub_libs empty16) "AAAA" (fresh_world 0) =
         (Raise e1,
          logged (fresh_world 0) [EvB64Decode; EvFromFile; EvFeature "mfcc"])) \/
    (exn_str
       (Exn ValueError
          "Detection error: Error extracting features: Audio buffer is empty")
     = ("Detection error: Error extracting features: " ++ msg)%string /\
     exists audio_array sr w1 e2,
       base64_to_audio (stub_libs empty16) "AAAA" (fresh_world 0) =
         (Ok (audio_array, sr), w1) /\
       extract_features (stub_libs empty16) audio_array sr w1 =
         (Raise e2,
          logged (fresh_world 0) [EvB64Decode; EvFromFile; EvFeature "mfcc"])).
Proof.
  exact (detect_error_names_stage (stub_libs empty16) "AAAA" (fresh_world 0)
           _ _ detect_empty_signal).
Defined.

(** ** The builtins of the route: [strip] and [round] *)

Lemma lstrip_nil l : lstrip l = [] <-> forallb is_space l = true.
Proof.
  induction l as [| c l IH]; cbn [lstrip forallb]; [tauto |].
  destruct (is_space c); cbn [andb]; [exact IH |].
  split; discriminate.
Qed.

Lemma forallb_rev {A} (f : A -> bool) l :
  forallb f (rev l) = forallb f l.
Proof.
  induction l as [| a l IH]; [reflexivity |].
  cbn [rev forallb]. rewrite forallb_app, IH. cbn [forallb].
  destruct (f a), (forallb f l); reflexivity.
Qed.

Lemma lstrip_spaces l : forallb is_space (lstrip l) = true -> lstrip l = [].
Proof.
  induction l as [| c l IH]; cbn [lstrip]; [reflexivity |].
  destruct (is_space c) eqn:Hc; [exact IH |].
  cbn [forallb]. rewrite Hc. discriminate.
Qed.

Lemma length_string_of_list l :
  String.length (string_of_list_ascii l) = length l.
Proof. induction l as [| c l IH]; cbn; [reflexivity | now rewrite IH]. Qed.

(** [len(s.strip()) == 0] holds exactly for the blank strings. *)
Lemma strip_blank s : String.length (strip s) = 0%nat <-> blank s.
Proof.
  unfold strip, blank. rewrite length_string_of_list, length_rev.
  set (l := list_ascii_of_string s). split.
  - intros H. apply length_zero_iff_nil in H.
    apply lstrip_nil in H. rewrite forallb_rev in H.
    apply lstrip_spaces in H. now apply lstrip_nil.
  - intros H. apply lstrip_nil in H. rewrite H. reflexivity.
Qed.

Lemma blank_test s :
  (String.eqb s "" || (String.length (strip s) =? 0)%nat) = true <-> blank s.
Proof.
  rewrite orb_true_iff, Nat.eqb_eq, strip_blank. split; [| auto].
  intros [H | H]; [| exact H].
  apply String.eqb_eq in H. subst s. reflexivity.
Qed.

Example strip_examples :
  strip "  aGk= 
" = "aGk="%string /\ strip " 	 " = ""%string /\ strip "a b" = "a b"%string.
Proof. repeat split; reflexivity. Qed.

Lemma round_half_even_cases x :
  round_half_even x = Int_part x /\ frac_part x <= 0.5 \/
  round_half_even x = (Int_part x + 1)%Z /\ 0.5 <= frac_part x.
Proof.
  unfold round_half_even.
  destruct (Rlt_dec (frac_part x) 0.5); [left; split; [reflexivity | lra] |].
  destruct (Rgt_dec (frac_part x) 0.5); [right; split; [reflexivity | lra] |].
  destruct (Z.even (Int_part x)); [left | right]; split; try reflexivity; lra.
Qed.

(** Rounding moves a number by at most one half. *)
Lemma round_half_even_near x : Rabs (IZR (round_half_even x) - x) <= 0.5.
Proof.
  pose proof (base_fp x) as [Hf0 Hf1].
  assert (Hx : x = IZR (Int_part x) + frac_part x) by (unfold frac_part; lra).
  destruct (round_half_even_cases x) as [[-> Hf] | [-> Hf]];
    rewrite ?plus_IZR; unfold Rabs; destruct (Rcase_abs _); lra.
Qed.

(** Rounding does not leave an interval with integer ends. *)
Lemma round_half_even_between (a b : Z) x :
  IZR a <= x <= IZR b -> (a <= round_half_even x <= b)%Z.
Proof.
  intros [Ha Hb].
  pose proof (base_fp x) as [Hf0 Hf1].
  assert (Hx : x = IZR (Int_part x) + frac_part x) by (unfold frac_part; lra).
  assert (Hlo : (a <= Int_part x)%Z).
  { apply Z.lt_succ_r. apply lt_IZR. rewrite succ_IZR. lra. }
  destruct (round_half_even_cases x) as [[-> Hf] | [-> Hf]].
  - split; [exact Hlo |]. apply le_IZR. lra.
  - split; [lia |].
    apply Z.le_succ_l. apply lt_IZR. lra.
Qed.

(** [round(c, 2)] of a confidence: within 0.005 of it, a multiple of 0.01,
    and inside [0.5, 1] when the confidence is. *)
Lemma py_round_confidence c :
  0.5 <= c <= 1 ->
  Rabs (py_round c 2 - c) <= 0.005 /\
  exists z : Z, (50 <= z <= 100)%Z /\ py_round c 2 = IZR z / 100.
Proof.
  intros Hc. unfold py_round.
  replace (10 ^ 2) with 100 by (simpl; lra).
  split.
  - pose proof (round_half_even_near (c * 100)) as H.
    replace (IZR (round_half_even (c * 100)) / 100 - c)
      with ((IZR (round_half_even (c * 100)) - c * 100) / 100) by lra.
    unfold Rabs in *. repeat destruct (Rcase_abs _); lra.
  - exists (round_half_even (c * 100)). split; [| reflexivity].
    apply round_half_even_between. lra.
Qed.

Example py_round_examples :
  py_round 0.5 2 = 0.5 /\ py_round 1 2 = 1 /\ py_round 0.875 2 = 0.88 /\
  py_round 0.125 2 = 0.12.
Proof.
  assert (H : forall x (z : Z) f,
            x * 100 = IZR z + f -> 0 <= f < 1 ->
            Int_part (x * 100) = z /\ frac_part (x * 100) = f).
  { intros x z f Hx Hf.
    assert (Hi : Int_part (x * 100) = z).
    { symmetry. apply Int_part_spec. lra. }
    split; [exact Hi |]. unfold frac_part. rewrite Hi. lra. }
  unfold py_round, round_half_even.
  replace (10 ^ 2) with 100 by (simpl; lra).
  repeat split.
  - destruct (H 0.5 50%Z 0 ltac:(lra) ltac:(lra)) as [-> ->].
    destruct (Rlt_dec 0 0.5); lra.
  - destruct (H 1 100%Z 0 ltac:(lra) ltac:(lra)) as [-> ->].
    destruct (Rlt_dec 0 0.5); lra.
  - destruct (H 0.875 87%Z 0.5 ltac:(lra) ltac:(lra)) as [-> ->].
    destruct (Rlt_dec 0.5 0.5); [lra |].
    destruct (Rgt_dec 0.5 0.5); [lra |].
    change (Z.even 87) with false. change (87 + 1)%Z with 88%Z. lra.
  - destruct (H 0.125 12%Z 0.5 ltac:(lra) ltac:(lra)) as [-> ->].
    destruct (Rlt_dec 0.5 0.5); [lra |].
    destruct (Rgt_dec 0.5 0.5); [lra |].
    change (Z.even 12) with true. lra.
Qed.

(** ** The route [detect_voice] *)

Lemma detect_raise L s w e w' :
  detect L s w = (Raise e, w') ->
  exn_class_of e = ValueError /\
  exists msg, exn_str e = ("Detection error: " ++ msg)%string.
Proof.
  rewrite detect_unfold.
  destruct (base64_to_audio L s w) as [[[audio_array sr] | e1] w1].
  - destruct (extract_features L audio_array sr w1) as [[features | e2] w2].
    + destruct (_calculate_ai_score features w2) as [[ai_score | e3] w3];
        [discriminate |].
      intros [= <- _]. split; [reflexivity | now eexists].
    + intros [= <- _]. split; [reflexivity | now eexists].
  - intros [= <- _]. split; [reflexivity | now eexists].
Qed.

Lemma detect_confidence_range L s w label c w' :
  detect L s w = (Ok (label, c), w') -> 0.5 <= c <= 1.
Proof.
  intros H.
  destruct (detect_ok_inv L s w _ w' H)
    as (audio_array & sr & w1 & features & w2 & ai_score & _ & _ & _ & Hr).
  pose proof (classify_confidence_ge_half ai_score) as Hlo.
  pose proof (classify_total ai_score) as [[_ Hhi] _].
  rewrite <- Hr in Hlo, Hhi. cbn [snd] in Hlo, Hhi. lra.
Qed.

Lemma make_response_ok label c :
  0 <= c <= 1 ->
  make_response label c = Ok {| classification := label; confidence := c |}.
Proof.
  intros Hc. unfold make_response.
  destruct (Rle_dec 0 c); [| lra]. destruct (Rle_dec c 1); [reflexivity | lra].
Qed.

(** The key test of the route lets through the configured key only, and
    no key at all when the configured key is empty. *)
Lemma key_test API_KEY (api_key : option string) :
  match api_key with
  | None => true
  | Some key => String.eqb key "" || negb (String.eqb key API_KEY)
  end = false <->
  api_key = Some API_KEY /\ API_KEY <> ""%string.
Proof.
  destruct api_key as [key |]; [| split; [discriminate | intros [[=] _]]].
  rewrite orb_false_iff, negb_false_iff, String.eqb_eq, String.eqb_neq.
  split.
  - intros [Hne ->]. auto.
  - intros [[= ->] Hne]. auto.
Qed.

(** The route behind the key test, on audio that is not blank: the
    outcome of [detect], as a response or as a client error. *)
Lemma detect_voice_granted L API_KEY audio w :
  API_KEY <> ""%string -> ~ blank audio ->
  detect_voice L API_KEY audio (Some API_KEY) w =
    match detect L audio w with
    | (Ok (label, c), w') =>
        (Returns {| classification := label; confidence := py_round c 2 |}, w')
    | (Raise e, w') =>
        (HTTPException 400 ("Invalid audio data: " ++ exn_str e), w')
    end.
Proof.
  intros Hkey Hblank. unfold detect_voice.
  replace (String.eqb API_KEY "" || negb (String.eqb API_KEY API_KEY))
    with false
    by (symmetry; apply (proj2 (key_test API_KEY (Some API_KEY))); auto).
  destruct (String.eqb audio "" || (String.length (strip audio) =? 0)%nat)
    eqn:Htest; [apply blank_test in Htest; contradiction |].
  destruct (detect L audio w) as [[[label c] | e] w'] eqn:Hd.
  - destruct (detect_confidence_range L audio w label c w' Hd) as [Hlo Hhi].
    destruct (py_round_confidence c (conj Hlo Hhi)) as (_ & z & Hz & Hr).
    rewrite make_response_ok; [reflexivity |].
    rewrite Hr. destruct Hz as [Hz1 Hz2].
    apply IZR_le in Hz1, Hz2. lra.
  - destruct (detect_raise L audio w e w' Hd) as [-> _]. reflexivity.
Qed.

Lemma detect_voice_blank L API_KEY audio w :
  API_KEY <> ""%string -> blank audio ->
  detect_voice L API_KEY audio (Some API_KEY) w =
    (HTTPException 500 "Internal server error during voice detection", w).
Proof.
  intros Hkey Hblank. unfold detect_voice.
  replace (String.eqb API_KEY "" || negb (String.eqb API_KEY API_KEY))
    with false
    by (symmetry; apply (proj2 (key_test API_KEY (Some API_KEY))); auto).
  apply blank_test in Hblank. rewrite Hblank. reflexivity.
Qed.

Lemma detect_voice_denied L API_KEY audio api_key w :
  ~ (api_key = Some API_KEY /\ API_KEY <> ""%string) ->
  detect_voice L API_KEY audio api_key w =
    (HTTPException 401
       "Missing or invalid API key. Provide X-API-Key in request headers.", w).
Proof.
  intros Hkey. unfold detect_voice.
  destruct (match api_key with
            | None => true
            | Some key => String.eqb key "" || negb (String.eqb key API_KEY)
            end) eqn:Htest; [reflexivity |].
  apply key_test in Htest. contradiction.
Qed.

(** The four ways the route ends. *)
Lemma detect_voice_cases L API_KEY audio api_key w :
  ~ (api_key = Some API_KEY /\ API_KEY <> ""%string) /\
  detect_voice L API_KEY audio api_key w =
    (HTTPException 401
       "Missing or invalid API key. Provide X-API-Key in request headers.", w) \/
  (api_key = Some API_KEY /\ API_KEY <> ""%string) /\
  (blank audio /\
   detect_voice L API_KEY audio api_key w =
     (HTTPException 500 "Internal server error during voice detection", w) \/
   ~ blank audio /\
   ((exists label c w',
       detect L audio w = (Ok (label, c), w') /\
       detect_voice L API_KEY audio api_key w =
         (Returns {| classification := label; confidence := py_round c 2 |},
          w')) \/
    (exists e w',
       detect L audio w = (Raise e, w') /\
       detect_voice L API_KEY audio api_key w =
         (HTTPException 400 ("Invalid audio data: " ++ exn_str e), w')))).
Proof.
  destruct (match api_key with
            | None => true
            | Some key => String.eqb key "" || negb (String.eqb key API_KEY)
            end) eqn:Htest.
  - left. assert (Hno : ~ (api_key = Some API_KEY /\ API_KEY <> ""%string)).
    { intros H. apply key_test in H. congruence. }
    split; [exact Hno | now apply detect_voice_denied].
  - right. apply key_test in Htest. destruct Htest as [-> Hkey].
    split; [auto |].
    destruct (forallb is_space (list_ascii_of_string audio)) eqn:Hb.
    + left. split; [exact Hb | now apply detect_voice_blank].
    + right. assert (Hnb : ~ blank audio) by (unfold blank; congruence).
      split; [exact Hnb |].
      rewrite (detect_voice_granted L API_KEY audio w Hkey Hnb).
      destruct (detect L audio w) as [[[label c] | e] w'].
      * left. now exists label, c, w'.
      * right. now exists e, w'.
Qed.

(** X14. A request without a key, with an empty key or with a key other
    than the configured one is answered 401 before anything is decoded; a
    request with the configured key is never answered 401, and no request
    is answered 403.  When the configured key is the empty string every
    request is answered 401. *)
Theorem detect_voice_key_check (L : Libs) (API_KEY audio : string)
    (api_key : option string) (w : world) :
  (~ (api_key = Some API_KEY /\ API_KEY <> ""%string) ->
   detect_voice L API_KEY audio api_key w =
     (HTTPException 401
        "Missing or invalid API key. Provide X-API-Key in request headers.",
      w)) /\
  (api_key = Some API_KEY -> API_KEY <> ""%string ->
   forall detail,
     fst (detect_voice L API_KEY audio api_key w) <> HTTPException 401 detail) /\
  (forall detail,
     fst (detect_voice L API_KEY audio api_key w) <> HTTPException 403 detail).
Proof.
  split; [apply detect_voice_denied |].
  destruct (detect_voice_cases L API_KEY audio api_key w)
    as [[Hno ->] | [Hyes [[_ ->] | [_ [(l & c & w' & _ & ->) | (e & w' & _ & ->)]]]]];
    split; intros; cbn [fst]; try discriminate; tauto.
Qed.

Lemma detect_voice_key_check_witness :
  detect_voice (stub_libs stereo16) "secret" "AAAA" (Some "guess"%string)
    (fresh_world 0) =
    (HTTPException 401
       "Missing or invalid API key. Provide X-API-Key in request headers.",
     fresh_world 0).
Proof.
  apply (proj1 (detect_voice_key_check (stub_libs stereo16) "secret" "AAAA"
                  (Some "guess"%string) (fresh_world 0))).
  intros [[=] _].
Defined.

(** X15. With the configured key, blank audio is answered 500, not 400:
    the 400 raised by the validation is an [HTTPException], which the
    handler for [Exception] of the same [try] turns into the 500.  Nothing
    is decoded.  Blank audio is the only audio answered 500, and no request
    at all gets the detail "Audio field cannot be empty". *)
Theorem detect_voice_blank_audio (L : Libs) (API_KEY audio : string)
    (api_key : option string) (w : world) :
  (api_key = Some API_KEY -> API_KEY <> ""%string -> blank audio ->
   detect_voice L API_KEY audio api_key w =
     (HTTPException 500 "Internal server error during voice detection", w)) /\
  (forall detail w',
     detect_voice L API_KEY audio api_key w = (HTTPException 500 detail, w') ->
     blank audio /\ w' = w) /\
  (forall status,
     fst (detect_voice L API_KEY audio api_key w) <>
       HTTPException status "Audio field cannot be empty").
Proof.
  split; [intros -> Hkey Hb; now apply detect_voice_blank |].
  destruct (detect_voice_cases L API_KEY audio api_key w)
    as [[Hno ->] | [Hyes [[Hb ->] | [_ [(l & c & w' & _ & ->) | (e & w' & _ & ->)]]]]];
    split; intros; cbn [fst]; try discriminate.
  injection H as _ <-. auto.
Qed.

Lemma detect_voice_blank_audio_witness :
  detect_voice (stub_libs stereo16) "secret" "  " (Some "secret"%string)
    (fresh_world 0) =
    (HTTPException 500 "Internal server error during voice detection",
     fresh_world 0).
Proof.
  apply (proj1 (detect_voice_blank_audio (stub_libs stereo16) "secret" "  "
                  (Some "secret"%string) (fresh_world 0)));
    [reflexivity | discriminate | reflexivity].
Defined.

(** X16. With the configured key and audio that is not blank the route
    mirrors [detect]: a detection that returns is answered with its label
    and its confidence rounded to two decimals, and a detection that
    raises is answered 400 with a detail that starts with "Invalid audio
    data: Detection error: ".  Such a request is never answered 500. *)
Theorem detect_voice_mirrors_detect (L : Libs) (API_KEY audio : string)
    (w : world) :
  API_KEY <> ""%string -> ~ blank audio ->
  (forall label c w',
     detect L audio w = (Ok (label, c), w') ->
     detect_voice L API_KEY audio (Some API_KEY) w =
       (Returns {| classification := label; confidence := py_round c 2 |},
        w')) /\
  (forall e w',
     detect L audio w = (Raise e, w') ->
     exists msg,
       detect_voice L API_KEY audio (Some API_KEY) w =
         (HTTPException 400
            ("Invalid audio data: Detection error: " ++ msg), w')) /\
  (forall detail,
     fst (detect_voice L API_KEY audio (Some API_KEY) w) <>
       HTTPException 500 detail).
Proof.
  intros Hkey Hnb.
  rewrite (detect_voice_granted L API_KEY audio w Hkey Hnb).
  split; [| split].
  - intros label c w' ->. reflexivity.
  - intros e w' Hd. rewrite Hd.
    destruct (detect_raise L audio w e w' Hd) as (_ & msg & ->).
    now exists msg.
  - intros detail. destruct (detect L audio w) as [[[label c] | e] w'];
      cbn [fst]; discriminate.
Qed.

(** A payload with a truncated base64 quad, sent with the configured key. *)
Lemma detect_voice_mirrors_detect_witness :
  exists msg,
    detect_voice (stub_libs stereo16) "secret" "AA" (Some "secret"%string)
      (fresh_world 0) =
      (HTTPException 400 ("Invalid audio data: Detection error: " ++ msg),
       logged (fresh_world 0) [EvB64Decode]).
Proof.
  assert (Hkey : "secret"%string <> ""%string) by discriminate.
  assert (Hnb : ~ blank "AA") by discriminate.
  exact (proj1 (proj2 (detect_voice_mirrors_detect (stub_libs stereo16)
                         "secret" "AA" (fresh_world 0) Hkey Hnb))
           (Exn ValueError
              "Detection error: Error processing audio: Incorrect padding")
           (logged (fresh_world 0) [EvB64Decode]) eq_refl).
Defined.

(** X17. Every response of the route carries the label of the detection
    and a confidence that is a whole number of hundredths between 0.50 and
    1.00, within 0.005 of the confidence of the detection: the range check
    of the response model never rejects it. *)
Theorem detect_voice_response (L : Libs) (API_KEY audio : string)
    (api_key : option string) (w w' : world) (response : DetectionResponse) :
  detect_voice L API_KEY audio api_key w = (Returns response, w') ->
  exists c : R,
    detect L audio w = (Ok (classification response, c), w') /\
    Rabs (confidence response - c) <= 0.005 /\
    0.5 <= confidence response <= 1 /\
    exists z : Z, (50 <= z <= 100)%Z /\ confidence response = IZR z / 100.
Proof.
  destruct (detect_voice_cases L API_KEY audio api_key w)
    as [[Hno ->] | [Hyes [[Hb ->] | [_ [(l & c & w1 & Hd & ->) | (e & w1 & _ & ->)]]]]];
    try discriminate.
  intros [= <- <-]. cbn [classification confidence].
  exists c. split; [exact Hd |].
  destruct (py_round_confidence c (detect_confidence_range L audio w l c w1 Hd))
    as (Hnear & z & Hz & Hr).
  split; [exact Hnear |]. split; [| now exists z].
  rewrite Hr. destruct Hz as [Hz1 Hz2]. apply IZR_le in Hz1, Hz2. lra.
Qed.

(** The regular signal of the worked examples, sent with the configured
    key. *)
Lemma detect_voice_regular_signal :
  detect_voice (stub_libs stereo16) "secret" "AAAA" (Some "secret"%string)
    (fresh_world 0) =
    (Returns {| classification := "AI_GENERATED";
                confidence := py_round 1 2 |},
     logged (fresh_world 0) full_run).
Proof.
  rewrite detect_voice_granted by discriminate.
  rewrite detect_regular_signal. reflexivity.
Qed.

Lemma detect_voice_response_witness :
  exists c : R,
    detect (stub_libs stereo16) "AAAA" (fresh_world 0) =
      (Ok ("AI_GENERATED"%string, c), logged (fresh_world 0) full_run) /\
    Rabs (py_round 1 2 - c) <= 0.005 /\
    0.5 <= py_round 1 2 <= 1 /\
    exists z : Z, (50 <= z <= 100)%Z /\ py_round 1 2 = IZR z / 100.
Proof.
  exact (detect_voice_response (stub_libs stereo16) "secret" "AAAA"
           (Some "secret"%string) (fresh_world 0)
           (logged (fresh_world 0) full_run)
           {| classification := "AI_GENERATED"; confidence := py_round 1 2 |}
           detect_voice_regular_signal).
Defined.

(** ** The dependency [verify_api_key] *)

(** X18. [verify_api_key] lets through exactly the keys the route lets
    through, the configured key when it is not empty, and returns that
    key.  It answers a missing or empty key with 401 and any other key
    with 403, where the route answers 401. *)
Theorem verify_api_key_agrees (L : Libs) (API_KEY audio : string)
    (x_api_key : option string) (w : world) :
  (verify_api_key API_KEY x_api_key = Returns API_KEY <->
   x_api_key = Some API_KEY /\ API_KEY <> ""%string) /\
  (forall key, verify_api_key API_KEY x_api_key = Returns key -> key = API_KEY) /\
  (x_api_key = None \/ x_api_key = Some ""%string ->
   verify_api_key API_KEY x_api_key =
     HTTPException 401 "Missing API key. Provide X-API-Key in request headers.") /\
  (forall key,
     x_api_key = Some key -> key <> ""%string -> key <> API_KEY ->
     verify_api_key API_KEY x_api_key = HTTPException 403 "Invalid API key" /\
     detect_voice L API_KEY audio x_api_key w =
       (HTTPException 401
          "Missing or invalid API key. Provide X-API-Key in request headers.",
        w)).
Proof.
  unfold verify_api_key. repeat split.
  - destruct x_api_key as [key |]; [| discriminate].
    destruct (String.eqb_spec key ""); [discriminate |].
    destruct (String.eqb_spec key API_KEY); cbn [negb]; [| discriminate].
    congruence.
  - destruct x_api_key as [key |]; [| discriminate].
    destruct (String.eqb_spec key ""); [discriminate |].
    destruct (String.eqb_spec key API_KEY); cbn [negb]; [| discriminate].
    congruence.
  - intros [-> Hkey].
    destruct (String.eqb_spec API_KEY ""); [contradiction |].
    rewrite String.eqb_refl. reflexivity.
  - intros key. destruct x_api_key as [key' |]; [| discriminate].
    destruct (String.eqb_spec key' ""); [discriminate |].
    destruct (String.eqb_spec key' API_KEY); cbn [negb]; [| discriminate].
    congruence.
  - intros [-> | ->]; reflexivity.
  - subst x_api_key.
    destruct (String.eqb_spec key ""); [contradiction |].
    destruct (String.eqb_spec key API_KEY); [contradiction | reflexivity].
  - apply detect_voice_denied. subst x_api_key. intros [[= ->] _]. contradiction.
Qed.

Lemma verify_api_key_agrees_witness :
  verify_api_key "secret" (Some "guess"%string) =
    HTTPException 403 "Invalid API key" /\
  detect_voice (stub_libs stereo16) "secret" "AAAA" (Some "guess"%string)
    (fresh_world 0) =
    (HTTPException 401
       "Missing or invalid API key. Provide X-API-Key in request headers.",
     fresh_world 0).
Proof.
  apply (proj2 (proj2 (proj2 (verify_api_key_agrees (stub_libs stereo16)
                                "secret" "AAAA" (Some "guess"%string)
                                (fresh_world 0))))
           "guess"%string eq_refl); discriminate.
Defined.

(** ** The decision in terms of the weighted sum *)

Lemma clamp_threshold t : 0.5 <= py_max 0 (py_min 1 t) <-> 0.5 <= t.
Proof.
  unfold py_max, py_min.
  destruct (Rlt_dec t 1); destruct (Rgt_dec _ 0); split; lra.
Qed.

(** X19. The clamps do not move a score across the threshold: the label
    is AI_GENERATED exactly when the weighted sum of the sub-scores plus
    the perturbation is at least 0.5, and HUMAN otherwise.  The confidence
    is the distance of the score from 0.5, plus 0.5. *)
Theorem label_decided_by_sum (features : dict value) (w : world)
    (v1 v2 v3 : value) (x1 x2 x3 : R) :
  getitem features "mfcc_var" = Ok v1 ->
  getitem features "spectral_centroid_var" = Ok (Scalar x1) ->
  getitem features "rms_var" = Ok (Scalar x2) ->
  getitem features "chroma_std" = Ok v2 ->
  getitem features "tonnetz_std" = Ok v3 ->
  getitem features "zcr_std" = Ok (Scalar x3) ->
  v1 <> Vector [] -> v2 <> Vector [] -> v3 <> Vector [] ->
  let total :=
    composite (np_mean v1) x1 x2 (np_mean v2) (np_mean v3) x3
    + 0.05 * gauss w 0%nat in
  exists ai_score : R,
    fst (_calculate_ai_score features w) = Ok ai_score /\
    (0.5 <= total -> fst (classify ai_score) = "AI_GENERATED"%string) /\
    (total < 0.5 -> fst (classify ai_score) = "HUMAN"%string) /\
    snd (classify ai_score) = Rabs (ai_score - 0.5) + 0.5.
Proof.
  intros H1 H2 H3 H4 H5 H6 _ _ _ total.
  rewrite (calculate_ai_score_run features w _ _ _ _ _ _ H1 H2 H3 H4 H5 H6).
  eexists. split; [reflexivity |].
  replace (composite (np_mean v1) x1 x2 (np_mean v2) (np_mean v3) x3
           + (0 + 0.05 * gauss w 0%nat)) with total by (unfold total; lra).
  pose proof (clamp_threshold total) as Hth.
  pose proof (clamp_range total) as Hr.
  set (s := py_max 0 (py_min 1 total)) in *.
  split; [| split].
  - intros Ht. rewrite classify_ai by tauto. reflexivity.
  - intros Ht. rewrite classify_human; [reflexivity |].
    destruct (Rlt_le_dec s 0.5); [assumption | exfalso; apply Hth in r; lra].
  - destruct (Rle_lt_dec 0.5 s) as [Hs | Hs].
    + rewrite classify_ai, clamp_id by lra. cbn [snd].
      rewrite Rabs_right by lra. lra.
    + rewrite classify_human, clamp_id by lra. cbn [snd].
      rewrite Rabs_left by lra. lra.
Qed.

(** The regular signal under a perturbation of -0.6: the sum is 0.4. *)
Lemma label_decided_by_sum_witness :
  exists ai_score : R,
    fst (_calculate_ai_score flat_features (fresh_world (-12))) = Ok ai_score /\
    fst (classify ai_score) = "HUMAN"%string.
Proof.
  destruct (label_decided_by_sum flat_features (fresh_world (-12))
              (Vector [0]) (Vector [0; 0; 0]) (Vector [0; 0]) 0 0 0
              eq_refl eq_refl eq_refl eq_refl eq_refl eq_refl
              ltac:(discriminate) ltac:(discriminate) ltac:(discriminate))
    as (ai_score & Hs & _ & Hhuman & _).
  exists ai_score. split; [exact Hs |]. apply Hhuman.
  pose proof (composite_range (np_mean (Vector [0])) 0 0
                (np_mean (Vector [0; 0; 0])) (np_mean (Vector [0; 0])) 0) as Hc.
  assert (Hone : composite (np_mean (Vector [0])) 0 0
                   (np_mean (Vector [0; 0; 0])) (np_mean (Vector [0; 0])) 0 <= 1).
  { apply Hc; cbn [np_mean]; try lra; apply mean_nonneg; repeat constructor; lra. }
  cbn [gauss fresh_world]. lra.
Defined.
